(** * aquanova_suite: document-event hooks over the Frappe document store

    A shallow embedding of [aquanova_suite/customizations.py] and of the
    event table [hooks.py].  The hooks are sequences of framework calls
    wrapped in one [try/except]; they are written here in a state and
    exception monad over a [World] that holds the document store, the
    last committed snapshot and the chronological list of observable
    framework effects.

    The framework (frappe) is not part of the repository.  Its calls are
    modelled by what they do to the [World]; whatever the hooks cannot
    decide themselves (does an insert pass validation, which name does it
    get, does the PDF renderer fail, ...) is a field of the record
    [Frappe], over which every general statement is quantified. *)

From Stdlib Require Import ZArith Ascii String Lia.
From stdpp Require Import gmap strings list pretty.

Local Open Scope string_scope.
Local Open Scope Z_scope.

(** ** Calendar dates ([datetime.date]) *)

Record Date := mkDate { year : Z; month : Z; day : Z }.

#[global] Instance Date_eq_dec : EqDecision Date.
Proof. solve_decision. Defined.

Definition is_leap (y : Z) : bool :=
  (y mod 4 =? 0) && (negb (y mod 100 =? 0) || (y mod 400 =? 0)).

Definition days_in_month (y m : Z) : Z :=
  if m =? 2 then (if is_leap y then 29 else 28)
  else if (m =? 4) || (m =? 6) || (m =? 9) || (m =? 11) then 30
  else 31.

Definition valid_date (d : Date) : bool :=
  (1 <=? year d) && (year d <=? 9999) &&
  (1 <=? month d) && (month d <=? 12) &&
  (1 <=? day d) && (day d <=? days_in_month (year d) (month d)).

(** [date + relativedelta(years=ys, months=ms)]: the month count is
    normalised into years, the day is clamped to the length of the target
    month, and a year outside 1..9999 is a [ValueError] ([None] here). *)
Definition relativedelta (d : Date) (ys ms : Z) : option Date :=
  let total := month d - 1 + ms in
  let y := year d + ys + total / 12 in
  let m := total mod 12 + 1 in
  if (1 <=? y) && (y <=? 9999)
  then Some (mkDate y m (Z.min (day d) (days_in_month y m)))
  else None.

(** The text of the [ValueError] for the year that [relativedelta] arrives
    at when it is outside 1..9999. *)
Definition year_out_of_range (d : Date) (ys ms : Z) : string :=
  "year " +:+ pretty (year d + ys + (month d - 1 + ms) / 12) +:+
  " is out of range".

(** *** ISO formatting and parsing, "YYYY-MM-DD" *)

(** The decimal digit of [k] (for [0 <= k <= 9]), and back. *)
Definition digit_char (k : Z) : ascii := ascii_of_nat (48 + Z.to_nat k).

Definition digit_val (c : ascii) : option Z :=
  let n := Z.of_nat (nat_of_ascii c) - 48 in
  if (0 <=? n) && (n <=? 9) then Some n else None.

Definition pad2 (n : Z) (rest : string) : string :=
  String (digit_char (n / 10 mod 10)) (String (digit_char (n mod 10)) rest).

Definition pad4 (n : Z) (rest : string) : string :=
  String (digit_char (n / 1000 mod 10))
    (String (digit_char (n / 100 mod 10)) (pad2 n rest)).

(** [str(d)], [d.isoformat()], and [d.strftime("%Y-%m-%d")] for years from
    1000 on. *)
Definition date_str (d : Date) : string :=
  pad4 (year d) (String "-" (pad2 (month d) (String "-" (pad2 (day d) "")))).

Definition num2 (a b : ascii) : option Z :=
  match digit_val a, digit_val b with
  | Some x, Some y => Some (10 * x + y)
  | _, _ => None
  end.

Definition num4 (a b c d : ascii) : option Z :=
  match num2 a b, num2 c d with
  | Some x, Some y => Some (100 * x + y)
  | _, _ => None
  end.

(** The date denoted by a string of the exact shape "YYYY-MM-DD". *)
Definition parse_iso (s : string) : option Date :=
  match s with
  | String y1 (String y2 (String y3 (String y4 (String "-"
      (String m1 (String m2 (String "-" (String d1 (String d2 "")))))))))
    =>
      match num4 y1 y2 y3 y4, num2 m1 m2, num2 d1 d2 with
      | Some y, Some m, Some d =>
          let r := mkDate y m d in if valid_date r then Some r else None
      | _, _, _ => None
      end
  | _ => None
  end.

(** ** Python values and documents *)

Inductive Value : Type :=
  | VNone
  | VBool (b : bool)
  | VInt (n : Z)
  | VStr (s : string)
  | VDate (d : Date)
  | VBytes (b : string).

#[global] Instance Value_eq_dec : EqDecision Value.
Proof. solve_decision. Defined.

(** Truth value of an object, as tested by [if x:] and [not x]. *)
Definition py_truthy (v : Value) : bool :=
  match v with
  | VNone => false
  | VBool b => b
  | VInt n => negb (n =? 0)
  | VStr s => negb (String.eqb s "")
  | VDate _ => true
  | VBytes b => negb (String.eqb b "")
  end.

(** [x == "literal"]: only a string compares equal to a string. *)
Definition py_eq_str (v : Value) (s : string) : bool :=
  match v with
  | VStr s' => String.eqb s' s
  | _ => false
  end.

(** [str(x)], which is what an f-string placeholder [{x}] inserts. *)
Definition py_str (v : Value) : string :=
  match v with
  | VNone => "None"
  | VBool true => "True"
  | VBool false => "False"
  | VInt n => pretty n
  | VStr s => s
  | VDate d => date_str d
  | VBytes b => "b'" +:+ b +:+ "'"
  end.

(** A document is the dictionary of its fields; [doctype] and [name] are
    fields like the others, as they are attributes of the Python object. *)
Abbreviation Doc := (gmap string Value).

(** [frappe.get_doc({...})] on a dictionary literal. *)
Definition get_doc (fields : list (string * Value)) : Doc := list_to_map fields.

(** [doc.get(key)] and [doc.get(key, default)] of [BaseDocument]: the
    second positional argument is used as default only when it is truthy. *)
Definition doc_get (d : Doc) (key : string) (default : Value) : Value :=
  match d !! key with
  | Some v => v
  | None => if py_truthy default then default else VNone
  end.

(** ** Exceptions and outcomes *)

Inductive Exn : Type :=
  | AttributeError (attr : string)
  | ValueError (msg : string)
  | ValidationError (msg : string)
  | FrameworkError (msg : string).

(** [str(e)].  For an [AttributeError] Python puts the class of the object
    in front ("'<Class>' object has no attribute ..."); the classes of the
    documents are not part of the module, and the text here starts after
    the class name. *)
Definition exn_str (e : Exn) : string :=
  match e with
  | AttributeError a => "object has no attribute '" +:+ a +:+ "'"
  | ValueError m => m
  | ValidationError m => m
  | FrameworkError m => m
  end.

Inductive Res (A : Type) : Type :=
  | Ok (a : A)
  | Raise (e : Exn).
Arguments Ok {A} a.
Arguments Raise {A} e.

Definition is_ok {A} (r : Res A) : bool :=
  match r with Ok _ => true | Raise _ => false end.

(** ** The world the hooks act on *)

Record Mail := mkMail {
  recipients : list Value;
  subject : string;
  message : string;
  attachments : list (string * Value)
}.

(** Observable framework effects, in the order in which they happen. *)
Inductive Event : Type :=
  | EvInsert (d : Doc)
  | EvDbSet (doctype name : Value) (field : string) (v : Value)
  | EvCommit
  | EvMsgprint (msg : string)
  | EvLogError (title msg : string)
  | EvSendmail (m : Mail).

Record World := mkWorld {
  db : list Doc;            (* the store as the running transaction sees it *)
  committed : list Doc;     (* the store as of the last commit *)
  events : list Event;
  today : Date;             (* the system clock's date *)
  session_user : string     (* frappe.session.user *)
}.

Definition with_db (w : World) (rows : list Doc) : World :=
  mkWorld rows (committed w) (events w) (today w) (session_user w).

Definition with_committed (w : World) (rows : list Doc) : World :=
  mkWorld (db w) rows (events w) (today w) (session_user w).

Definition emit (w : World) (e : Event) : World :=
  mkWorld (db w) (committed w) (events w ++ [e])%list (today w) (session_user w).

(** The framework's answers that the hooks do not determine. *)
Record Frappe := mkFrappe {
  (* [Document.insert]: the exception it raises, if any (validation,
     duplicate name, missing doctype, ...), and the name it assigns *)
  fw_insert_error : Doc → World → option Exn;
  fw_autoname : Doc → World → string;
  (* [Document.db_set]: the exception it raises, if any *)
  fw_db_set_error : Doc → string → Value → World → option Exn;
  (* [frappe.render_template(path, context)] *)
  fw_render_template : string → option Doc → World → Res string;
  (* [frappe.utils.pdf.get_pdf(html)] *)
  fw_get_pdf : string → World → Res string;
  (* [frappe.sendmail]: the exception it raises, if any *)
  fw_sendmail_error : Mail → World → option Exn;
  (* [frappe.generate_hash()] *)
  fw_generate_hash : World → string;
  (* [getdate] and [add_to_date] on arguments that are neither a date
     nor an ISO date string *)
  fw_getdate_other : Value → World → Res Value;
  fw_add_to_date_other : Value → Z → Z → World → Res Value
}.

(** ** The monad: state and exceptions *)

Definition M (A : Type) : Type := World → Res A * World.

Definition ret {A} (a : A) : M A := fun w => (Ok a, w).

Definition bind {A B} (c : M A) (k : A → M B) : M B :=
  fun w =>
    match c w with
    | (Ok a, w') => k a w'
    | (Raise e, w') => (Raise e, w')
    end.

Definition raise {A} (e : Exn) : M A := fun w => (Raise e, w).

(** [try: body  except Exception as e: handler(e)] *)
Definition try_except {A} (body : M A) (handler : Exn → M A) : M A :=
  fun w =>
    match body w with
    | (Ok a, w') => (Ok a, w')
    | (Raise e, w') => handler e w'
    end.

Notation "x <- c ;; k" := (bind c (fun x => k))
  (at level 100, c at next level, right associativity).
Notation "c ;; k" := (bind c (fun _ => k))
  (at level 100, right associativity).

(** [for x in xs: body(x)] *)
Fixpoint for_each {A} (xs : list A) (body : A → M unit) : M unit :=
  match xs with
  | [] => ret tt
  | x :: rest => body x ;; for_each rest body
  end.

(** A [for] loop that updates one local variable. *)
Fixpoint for_fold {A B} (xs : list A) (acc : B) (body : B → A → M B) : M B :=
  match xs with
  | [] => ret acc
  | x :: rest => acc' <- body acc x ;; for_fold rest acc' body
  end.

(** ** Framework calls *)

Section WithFrappe.
Context (F : Frappe).

(** [obj.attr]: an [AttributeError] when the object has no such attribute. *)
Definition getattr (d : Doc) (attr : string) : M Value :=
  fun w =>
    match d !! attr with
    | Some v => (Ok v, w)
    | None => (Raise (AttributeError attr), w)
    end.

(** [row.attr] on a [frappe._dict] query row: [None] when absent. *)
Definition row_attr (row : Doc) (attr : string) : Value :=
  default VNone (row !! attr).

(** [nowdate()]: the date of the system clock as "YYYY-MM-DD". *)
Definition nowdate : M Value :=
  fun w => (Ok (VStr (date_str (today w))), w).

Definition frappe_session_user : M Value :=
  fun w => (Ok (VStr (session_user w)), w).

Definition generate_hash : M string :=
  fun w => (Ok (fw_generate_hash F w), w).

(** [frappe.utils.getdate]: a date is returned as it is and an ISO date
    string is parsed; "0001-01-01" counts as a null date for the framework
    and, as every other argument, is left to [fw_getdate_other]. *)
Definition getdate (v : Value) : M Value :=
  fun w =>
    match v with
    | VDate d => (Ok (VDate d), w)
    | VStr s =>
        match parse_iso s with
        | Some d =>
            if bool_decide (d = mkDate 1 1 1) then (fw_getdate_other F v w, w)
            else (Ok (VDate d), w)
        | None => (fw_getdate_other F v w, w)
        end
    | _ => (fw_getdate_other F v w, w)
    end.

(** [frappe.utils.add_to_date(date, years=ys, months=ms)]: a date gives a
    date; a date string is parsed, shifted and formatted again (with
    [strftime], which pads the year to four digits from 1000 on). *)
Definition add_to_date (v : Value) (ys ms : Z) : M Value :=
  fun w =>
    match v with
    | VDate d =>
        match relativedelta d ys ms with
        | Some d' => (Ok (VDate d'), w)
        | None => (Raise (ValueError (year_out_of_range d ys ms)), w)
        end
    | VStr s =>
        match parse_iso s with
        | Some d =>
            match relativedelta d ys ms with
            | Some d' =>
                if 1000 <=? year d' then (Ok (VStr (date_str d')), w)
                else (fw_add_to_date_other F v ys ms w, w)
            | None => (Raise (ValueError (year_out_of_range d ys ms)), w)
            end
        | None => (fw_add_to_date_other F v ys ms w, w)
        end
    | _ => (fw_add_to_date_other F v ys ms w, w)
    end.

Definition add_years (v : Value) (years : Z) : M Value := add_to_date v years 0.
Definition add_months (v : Value) (months : Z) : M Value := add_to_date v 0 months.

(** [doc.insert(ignore_permissions=True)]: raises, or names the document
    and adds it to the store of the running transaction.  The standard
    fields that the framework fills in besides [name] are left out. *)
Definition doc_insert (d : Doc) : M Doc :=
  fun w =>
    match fw_insert_error F d w with
    | Some e => (Raise e, w)
    | None =>
        let d' := <["name" := VStr (fw_autoname F d w)]> d in
        (Ok d', emit (with_db w (db w ++ [d'])%list) (EvInsert d'))
    end.

Definition same_document (doctype name : Value) (row : Doc) : bool :=
  bool_decide (row !! "doctype" = Some doctype ∧ row !! "name" = Some name).

(** [doc.db_set(field, value)]: sets the attribute on the object and writes
    the column of the document's row; the updated object is returned. *)
Definition db_set (doc : Doc) (field : string) (v : Value) : M Doc :=
  doctype <- getattr doc "doctype" ;;
  name <- getattr doc "name" ;;
  fun w =>
    match fw_db_set_error F doc field v w with
    | Some e => (Raise e, w)
    | None =>
        let upd row :=
          if same_document doctype name row then <[field := v]> row else row in
        (Ok (<[field := v]> doc),
         emit (with_db w (upd <$> db w)) (EvDbSet doctype name field v))
    end.

(** [frappe.db.commit()] *)
Definition db_commit : M unit :=
  fun w => (Ok tt, emit (with_committed w (db w)) EvCommit).

(** What the framework does with the running transaction when a request
    ends in an exception: [frappe.db.rollback()]. *)
Definition db_rollback : M unit :=
  fun w => (Ok tt, with_db w (committed w)).

Definition msgprint (msg : string) : M unit :=
  fun w => (Ok tt, emit w (EvMsgprint msg)).

(** [frappe.log_error(message=..., title=...)]: the error log is kept
    apart from the documents of the store. *)
Definition log_error (msg title : string) : M unit :=
  fun w => (Ok tt, emit w (EvLogError title msg)).

(** [frappe.throw(msg)]: shows the message and raises [ValidationError]. *)
Definition throw {A} (msg : string) : M A :=
  fun w => (Raise (ValidationError msg), emit w (EvMsgprint msg)).

Definition render_template (path : string) (doc : option Doc) : M string :=
  fun w => (fw_render_template F path doc w, w).

Definition get_pdf (html : string) : M string :=
  fun w => (fw_get_pdf F html w, w).

(** [frappe.sendmail(...)]: raises, or hands the mail over; the mail
    queue, like the error log, is kept apart from the documents of the
    store. *)
Definition sendmail (m : Mail) : M unit :=
  fun w =>
    match fw_sendmail_error F m w with
    | Some e => (Raise e, w)
    | None => (Ok tt, emit w (EvSendmail m))
    end.

Definition row_matches (doctype : string) (filters : list (string * Value))
    (row : Doc) : bool :=
  bool_decide (row !! "doctype" = Some (VStr doctype)) &&
  forallb (fun kv => bool_decide (row !! kv.1 = Some kv.2)) filters.

(** [frappe.get_all(doctype, filters=..., fields=...)]: the requested
    columns of the matching rows. *)
Definition get_all (doctype : string) (filters : list (string * Value))
    (fields : list string) : M (list Doc) :=
  fun w =>
    (Ok ((fun row => list_to_map ((fun f => (f, row_attr row f)) <$> fields))
           <$> List.filter (row_matches doctype filters) (db w)), w).

(** [frappe.db.get_value(doctype, name, field)]: [None] when there is no such
    document. *)
Definition db_get_value (doctype : string) (name : Value) (field : string)
    : M Value :=
  fun w =>
    (Ok match List.find (same_document (VStr doctype) name) (db w) with
        | Some row => row_attr row field
        | None => VNone
        end, w).

(** ** aquanova_suite/customizations.py *)

Definition create_production_order (doc : Doc) (method : string) : M unit :=
  try_except
    (status <- getattr doc "status" ;;
     if py_eq_str status "Approved" then
       design_id <- getattr doc "design_id" ;;
       name <- getattr doc "name" ;;
       start <- nowdate ;;
       let production_order := get_doc [
         ("doctype", VStr "Production Order");
         ("production_order_id", design_id);
         ("wastewater_design", name);
         ("status", VStr "Draft");
         ("expected_start_date", start);
         ("production_qty", VInt 1);
         ("bom_no", doc_get doc "bom_reference" VNone)] in
       production_order <- doc_insert production_order ;;
       db_commit ;;
       po_name <- getattr production_order "name" ;;
       design_id <- getattr doc "design_id" ;;
       msgprint ("Production Order " +:+ py_str po_name +:+
                 " created for Design " +:+ py_str design_id)
     else ret tt)
    (fun e =>
       log_error (exn_str e) "Production Order Creation Failed" ;;
       throw "Failed to create Production Order. Please check the system logs.").

Definition send_design_approval_email (doc : Doc) (method : string) : M unit :=
  try_except
    (design_id <- getattr doc "design_id" ;;
     let subject := "Design Approved: " +:+ py_str design_id in
     design_id <- getattr doc "design_id" ;;
     design_date <- getattr doc "design_date" ;;
     let message :=
       "Design " +:+ py_str design_id +:+ " approved on " +:+
       py_str design_date +:+
       ". Please review the production details in ERPNext." in
     production_managers <-
       get_all "Has Role" [("role", VStr "Production Manager")] ["parent"] ;;
     recipients <-
       for_fold production_managers [] (fun recipients pm =>
         user_email <- db_get_value "User" (row_attr pm "parent") "email" ;;
         if py_truthy user_email then ret (recipients ++ [user_email])%list
         else ret recipients) ;;
     match recipients with
     | _ :: _ => sendmail (mkMail recipients subject message [])
     | [] => ret tt
     end)
    (fun e =>
       log_error (exn_str e) "Design Approval Email Failed" ;;
       throw "Failed to send email notification. Please check the system logs.").

Definition attach_design_pdf (doc : Doc) (method : string) : M unit :=
  try_except
    (html <- render_template
               "aquanova_suite/templates/print/wastewater_design.html"
               (Some doc) ;;
     pdf_data <- get_pdf html ;;
     design_id <- getattr doc "design_id" ;;
     doctype <- getattr doc "doctype" ;;
     name <- getattr doc "name" ;;
     let file_doc := get_doc [
       ("doctype", VStr "File");
       ("file_name", VStr (py_str design_id +:+ ".pdf"));
       ("is_private", VInt 1);
       ("content", VBytes pdf_data);
       ("attached_to_doctype", doctype);
       ("attached_to_name", name)] in
     file_doc <- doc_insert file_doc ;;
     db_commit)
    (fun e =>
       log_error (exn_str e) "PDF Generation Failed" ;;
       throw "Failed to generate PDF. Please check the system logs.").

Definition create_job_card (installation_doc : Doc) (scheduled_date : Value)
    (maintenance_type : string) (emergency : bool) : M unit :=
  try_except
    (inst_name <- getattr installation_doc "name" ;;
     let job_card_id :=
       "JC-" +:+ py_str inst_name +:+ "-" +:+ py_str scheduled_date in
     inst_name <- getattr installation_doc "name" ;;
     let job_card := get_doc [
       ("doctype", VStr "Job Card");
       ("job_card_id", VStr job_card_id);
       ("installation_record", inst_name);
       ("scheduled_date", scheduled_date);
       ("maintenance_type", VStr maintenance_type);
       ("status", VStr "Open");
       ("emergency", VBool emergency);
       ("remarks", VStr (if negb emergency then "Auto-generated job card"
                         else "Emergency job card generated"))] in
     job_card <- doc_insert job_card ;;
     db_commit ;;
     jc_name <- getattr job_card "name" ;;
     inst_name <- getattr installation_doc "name" ;;
     msgprint ("Job Card " +:+ py_str jc_name +:+ " created for Installation " +:+
               py_str inst_name +:+ " on " +:+ py_str scheduled_date))
    (fun e =>
       log_error (exn_str e) "Job Card Creation Failed" ;;
       throw "Failed to create Job Card. Please check the system logs.").

Definition schedule_intervals : list Z := [3; 6; 9; 12].

Definition create_maintenance_schedule (installation_doc : Doc) : M unit :=
  try_except
    (installation_date <- getattr installation_doc "installation_date" ;;
     install_date <- getdate installation_date ;;
     for_each schedule_intervals (fun months =>
       scheduled_date <- add_months install_date months ;;
       create_job_card installation_doc scheduled_date
         "Scheduled Maintenance" false))
    (fun e =>
       log_error (exn_str e) "Maintenance Schedule Creation Failed" ;;
       throw "Failed to create Maintenance Schedule. Please check the system logs.").

(** The hook changes its argument in place ([doc.db_set]); the object as
    the caller sees it after a normal return is the result. *)
Definition create_installation_record (doc : Doc) (method : string) : M Doc :=
  try_except
    (status <- getattr doc "status" ;;
     if py_eq_str status "Completed" &&
        negb (py_truthy (doc_get doc "installation_record" VNone))
     then
       name <- getattr doc "name" ;;
       installation_date <- nowdate ;;
       installed_by <- frappe_session_user ;;
       let installation := get_doc [
         ("doctype", VStr "Installation Record");
         ("production_order", name);
         ("system_design", doc_get doc "wastewater_design" VNone);
         ("installation_date", installation_date);
         ("installed_by", installed_by);
         ("status", VStr "Scheduled")] in
       installation <- doc_insert installation ;;
       inst_name <- getattr installation "name" ;;
       doc <- db_set doc "installation_record" inst_name ;;
       db_commit ;;
       inst_name <- getattr installation "name" ;;
       name <- getattr doc "name" ;;
       msgprint ("Installation Record " +:+ py_str inst_name +:+
                 " created for Production Order " +:+ py_str name) ;;
       create_maintenance_schedule installation ;;
       ret doc
     else ret doc)
    (fun e =>
       log_error (exn_str e) "Installation Record Creation Failed" ;;
       throw "Failed to create Installation Record. Please check the system logs.").

Definition create_warranty_record (doc : Doc) (method : string) : M unit :=
  try_except
    (status <- getattr doc "status" ;;
     if py_eq_str status "Installed" then
       installation_date <- getattr doc "installation_date" ;;
       warranty_end_date <- add_years installation_date 1 ;;
       name <- getattr doc "name" ;;
       start_date <- getattr doc "installation_date" ;;
       let warranty := get_doc [
         ("doctype", VStr "Warranty Record");
         ("installation_record", name);
         ("start_date", start_date);
         ("end_date", warranty_end_date);
         ("status", VStr "Active");
         ("remarks", VStr "Warranty automatically generated upon installation.")] in
       warranty <- doc_insert warranty ;;
       db_commit ;;
       w_name <- getattr warranty "name" ;;
       name <- getattr doc "name" ;;
       msgprint ("Warranty Record " +:+ py_str w_name +:+
                 " created for Installation Record " +:+ py_str name)
     else ret tt)
    (fun e =>
       log_error (exn_str e) "Warranty Record Creation Failed" ;;
       throw "Failed to create Warranty Record. Please check the system logs.").

Definition handle_emergency_job_card (installation_record : Doc)
    (details : string) : M unit :=
  try_except
    (scheduled_date <- nowdate ;;
     create_job_card installation_record scheduled_date
       "Emergency Maintenance" true ;;
     msgprint "Emergency Job Card created.")
    (fun e =>
       log_error (exn_str e) "Emergency Job Card Creation Failed" ;;
       throw "Failed to create Emergency Job Card. Please check the system logs.").

Definition log_maintenance_activity (doc : Doc) (method : string) : M unit :=
  try_except
    (maintenance_id <-
       (let given := doc_get doc "maintenance_id" VNone in
        if py_truthy given then ret given
        else h <- generate_hash ;; ret (VStr ("ML-" +:+ h))) ;;
     maintenance_date <- nowdate ;;
     performed_by <- frappe_session_user ;;
     let maintenance_log := get_doc [
       ("doctype", VStr "Maintenance Log");
       ("maintenance_id", maintenance_id);
       ("installation_record", doc_get doc "installation_record" (VStr ""));
       ("equipment", doc_get doc "equipment" VNone);
       ("maintenance_date", maintenance_date);
       ("performed_by", performed_by);
       ("activity", doc_get doc "activity" (VStr "Routine Check"));
       ("remarks", doc_get doc "remarks" (VStr ""))] in
     maintenance_log <- doc_insert maintenance_log ;;
     db_commit ;;
     ml_name <- getattr maintenance_log "name" ;;
     msgprint ("Maintenance Log " +:+ py_str ml_name +:+ " created."))
    (fun e =>
       log_error (exn_str e) "Maintenance Log Creation Failed" ;;
       throw "Failed to log maintenance activity. Please check the system logs.").

Definition update_inventory_on_component_production (doc : Doc)
    (method : string) : M unit :=
  try_except
    (component_id <- getattr doc "component_id" ;;
     msgprint ("Inventory updated for Manufactured Component: " +:+
               py_str component_id))
    (fun e =>
       log_error (exn_str e) "Inventory Update Failed" ;;
       throw "Failed to update inventory. Please check the system logs.").

Definition generate_maintenance_report : M unit :=
  try_except
    (report_html <- render_template
                      "aquanova_suite/templates/print/maintenance_report.html"
                      None ;;
     pdf_data <- get_pdf report_html ;;
     let subject := "Monthly Maintenance Report" in
     let message := "Please find attached the monthly maintenance report." in
     sendmail (mkMail [VStr "maintenance@example.com"] subject message
                 [("Maintenance_Report.pdf", VBytes pdf_data)]))
    (fun e =>
       log_error (exn_str e) "Maintenance Report Generation Failed").

(** ** hooks.py *)

(** [doc_events]: doctype, then event, then the dotted paths of the handlers
    (a single path in the source is a list of one). *)
Definition doc_events : list (string * list (string * list string)) := [
  ("Wastewater System Design", [
     ("on_submit", [
        "aquanova_suite.customizations.create_production_order";
        "aquanova_suite.customizations.send_design_approval_email";
        "aquanova_suite.customizations.attach_design_pdf"])]);
  ("Production Order", [
     ("on_submit", ["aquanova_suite.customizations.create_installation_record"])]);
  ("Installation Record", [
     ("on_submit", ["aquanova_suite.customizations.create_warranty_record"])]);
  ("Maintenance Log", [
     ("on_submit", ["aquanova_suite.customizations.log_maintenance_activity"])]);
  ("Manufactured Component", [
     ("on_submit", [
        "aquanova_suite.customizations.update_inventory_on_component_production"])])
].

(** A handler is called as [handler(doc, method)] on the document object of
    the event; the object is handed on to the next handler. *)
Definition Handler : Type := Doc → string → M Doc.

Definition same_object (h : Doc → string → M unit) : Handler :=
  fun doc method => h doc method ;; ret doc.

(** The functions that the dotted paths of [doc_events] name. *)
Definition get_attr (path : string) : option Handler :=
  if String.eqb path "aquanova_suite.customizations.create_production_order"
  then Some (same_object create_production_order)
  else if String.eqb path "aquanova_suite.customizations.send_design_approval_email"
  then Some (same_object send_design_approval_email)
  else if String.eqb path "aquanova_suite.customizations.attach_design_pdf"
  then Some (same_object attach_design_pdf)
  else if String.eqb path "aquanova_suite.customizations.create_installation_record"
  then Some create_installation_record
  else if String.eqb path "aquanova_suite.customizations.create_warranty_record"
  then Some (same_object create_warranty_record)
  else if String.eqb path "aquanova_suite.customizations.log_maintenance_activity"
  then Some (same_object log_maintenance_activity)
  else if String.eqb path
            "aquanova_suite.customizations.update_inventory_on_component_production"
  then Some (same_object update_inventory_on_component_production)
  else None.

Definition assoc {A} (key : string) (l : list (string * A)) : option A :=
  snd <$> List.find (fun kv => String.eqb kv.1 key) l.

Definition handlers_of (doctype event : string) : list string :=
  default [] (evs ← assoc doctype doc_events; assoc event evs).

(** The framework's event dispatch: the handlers registered for the
    document's doctype run one after the other, and an exception of one of
    them ends the dispatch. *)
Fixpoint call_handlers (paths : list string) (doc : Doc) (method : string)
    : M Doc :=
  match paths with
  | [] => ret doc
  | path :: rest =>
      match get_attr path with
      | Some handler =>
          doc <- handler doc method ;; call_handlers rest doc method
      | None => raise (AttributeError path)
      end
  end.

Definition run_doc_event (doc : Doc) (event : string) : M Doc :=
  match doc !! "doctype" with
  | Some (VStr doctype) => call_handlers (handlers_of doctype event) doc event
  | _ => ret doc
  end.

(** The submit request around the handlers: an exception that leaves the
    dispatch makes the framework roll the running transaction back. *)
Definition run_on_submit (doc : Doc) : M Doc :=
  try_except (run_doc_event doc "on_submit")
    (fun e => db_rollback ;; raise e).

End WithFrappe.

(** ** A framework for running the hooks on concrete inputs

    Inserts are refused for the doctypes listed in [refused]; names are
    the doctype followed by the number of rows in the store; templates
    render and the PDF renderer and the mailer work unless [pdf_fails]. *)

Definition name_for (d : Doc) (w : World) : string :=
  py_str (default VNone (d !! "doctype")) +:+ "-" +:+
  pretty (Z.of_nat (length (db w))).

Definition refuses (refused : list string) (d : Doc) : bool :=
  existsb (py_eq_str (default VNone (d !! "doctype"))) refused.

Definition test_frappe (refused : list string) (pdf_fails : bool) : Frappe := {|
  fw_insert_error d w :=
    if refuses refused d then Some (FrameworkError "insert refused") else None;
  fw_autoname := name_for;
  fw_db_set_error _ _ _ _ := None;
  fw_render_template path _ _ := Ok ("<html>" +:+ path +:+ "</html>");
  fw_get_pdf html _ :=
    if pdf_fails then Raise (FrameworkError "wkhtmltopdf failed")
    else Ok ("%PDF " +:+ html);
  fw_sendmail_error _ _ := None;
  fw_generate_hash _ := "0a1b2c3d";
  fw_getdate_other _ _ := Raise (FrameworkError "unsupported date");
  fw_add_to_date_other _ _ _ _ := Raise (FrameworkError "unsupported date")
|}.

(** A store in which everything is committed and nothing has happened yet. *)
Definition stored (rows : list Doc) : World :=
  mkWorld rows rows [] (mkDate 2024 11 30) "installer@example.com".

Definition order_PO1 : Doc := get_doc [
  ("doctype", VStr "Production Order"); ("name", VStr "PO-1");
  ("status", VStr "Completed"); ("wastewater_design", VStr "WD-1")].

Definition installation_IR1 : Doc := get_doc [
  ("doctype", VStr "Installation Record"); ("name", VStr "IR-1");
  ("status", VStr "Installed"); ("production_order", VStr "PO-1");
  ("installation_date", VDate (mkDate 2024 2 29))].

Definition design_WD1 (status : string) : Doc := get_doc [
  ("doctype", VStr "Wastewater System Design"); ("name", VStr "WD-1");
  ("design_id", VStr "D-001"); ("design_date", VDate (mkDate 2024 11 1));
  ("status", VStr status)].

Definition maintenance_log_ML1 : Doc := get_doc [
  ("doctype", VStr "Maintenance Log"); ("name", VStr "ML-1");
  ("maintenance_id", VStr "ML-1"); ("installation_record", VStr "IR-1");
  ("activity", VStr "Filter change")].

Definition has_role (user role : string) : Doc := get_doc [
  ("doctype", VStr "Has Role"); ("parent", VStr user); ("role", VStr role)].

Definition user (name : string) (email : Value) : Doc := get_doc [
  ("doctype", VStr "User"); ("name", VStr name); ("email", email)].

(** ** Vocabulary of the statements *)

(** The framework accepts every insert of a document of the doctype. *)
Definition accepts_inserts (F : Frappe) (doctype : string) : Prop :=
  ∀ d w, d !! "doctype" = Some (VStr doctype) → fw_insert_error F d w = None.

Definition db_set_works (F : Frappe) : Prop :=
  ∀ d field v w, fw_db_set_error F d field v w = None.

Definition sendmail_works (F : Frappe) : Prop :=
  ∀ m w, fw_sendmail_error F m w = None.

(** Names given by the framework are never empty. *)
Definition names_nonempty (F : Frappe) : Prop :=
  ∀ d w, fw_autoname F d w ≠ "".

(** The documents inserted, and the mails sent, by a sequence of events. *)
Definition inserted (evs : list Event) : list Doc :=
  omap (fun e => match e with EvInsert d => Some d | _ => None end) evs.

Definition sent (evs : list Event) : list Mail :=
  omap (fun e => match e with EvSendmail m => Some m | _ => None end) evs.

(** The world after a document was inserted and committed and a message
    was shown: what a creating function does when nothing fails. *)
Definition created (w : World) (d : Doc) (msg : string) : World :=
  mkWorld (db w ++ [d])%list (db w ++ [d])%list
          (events w ++ [EvInsert d; EvCommit; EvMsgprint msg])%list
          (today w) (session_user w).

(** The date a value stands for: a date, or an ISO date string. *)
Definition date_of (v : Value) : option Date :=
  match v with
  | VDate d => Some d
  | VStr s => parse_iso s
  | _ => None
  end.

(** A Job Card of the maintenance schedule of [inst], due [months] months
    after [d0]. *)
Definition scheduled_job_card (inst : Doc) (d0 : Date) (months : Z)
    (jc : Doc) : Prop :=
  jc !! "doctype" = Some (VStr "Job Card") ∧
  jc !! "installation_record" = inst !! "name" ∧
  jc !! "scheduled_date" = VDate <$> relativedelta d0 0 months ∧
  is_Some (relativedelta d0 0 months) ∧
  jc !! "maintenance_type" = Some (VStr "Scheduled Maintenance").

(** The effect of an event on the pair of the transaction's store and the
    committed store. *)
Definition replay_event (s : list Doc * list Doc) (e : Event)
    : list Doc * list Doc :=
  match e with
  | EvInsert d => ((s.1 ++ [d])%list, s.2)
  | EvDbSet doctype name field v =>
      ((fun row => if same_document doctype name row
                   then <[field := v]> row else row) <$> s.1, s.2)
  | EvCommit => (s.1, s.1)
  | _ => s
  end.

Definition replay (evs : list Event) (s : list Doc * list Doc)
    : list Doc * list Doc :=
  foldl replay_event s evs.

(** A computation touches the store only through its events: the stores
    after it are the replay of the events it added. *)
Definition tracks {A} (c : M A) : Prop :=
  ∀ w r w', c w = (r, w') →
    ∃ evs, events w' = (events w ++ evs)%list ∧
           (db w', committed w') = replay evs (db w, committed w).


(** The e-mail addresses of the users that hold the role "Production
    Manager", those without an address left out. *)
Definition email_of (rows : list Doc) (user : Value) : Value :=
  match List.find (same_document (VStr "User") user) rows with
  | Some row => row_attr row "email"
  | None => VNone
  end.

Definition is_production_manager (row : Doc) : bool :=
  bool_decide (row !! "doctype" = Some (VStr "Has Role")) &&
  bool_decide (row !! "role" = Some (VStr "Production Manager")).

Definition manager_emails (rows : list Doc) : list Value :=
  List.filter py_truthy
    ((fun row => email_of rows (row_attr row "parent"))
       <$> List.filter is_production_manager rows).

(** ** Vocabulary of the further statements *)

(** All the events that a computation adds satisfy [P]. *)
Definition emits {A} (P : Event → bool) (c : M A) : Prop :=
  ∀ w r w', c w = (r, w') →
    ∃ evs, events w' = (events w ++ evs)%list ∧ Forall (fun e => P e = true) evs.

Definition has_status (d : Doc) (status : string) : bool :=
  py_eq_str (default VNone (d !! "status")) status.

(** A document as the module creates it: one of six doctypes, with the
    status that the creating function gives it; a File is private. *)
Definition initial_document (d : Doc) : bool :=
  match d !! "doctype" with
  | Some (VStr doctype) =>
      if String.eqb doctype "Production Order" then has_status d "Draft"
      else if String.eqb doctype "Installation Record" then has_status d "Scheduled"
      else if String.eqb doctype "Warranty Record" then has_status d "Active"
      else if String.eqb doctype "Job Card" then has_status d "Open"
      else if String.eqb doctype "File"
      then match d !! "is_private" with Some (VInt 1) => true | _ => false end
      else String.eqb doctype "Maintenance Log"
  | _ => false
  end.

(** The writes the module makes: inserts of such documents, and [db_set] of
    the field [installation_record]; every other event is allowed. *)
Definition module_event (e : Event) : bool :=
  match e with
  | EvInsert d => initial_document d
  | EvDbSet _ _ field _ => String.eqb field "installation_record"
  | _ => true
  end.

(** An event that is no write to the store. *)
Definition no_write (e : Event) : bool :=
  match e with
  | EvInsert _ | EvDbSet _ _ _ _ | EvCommit => false
  | _ => true
  end.

(** A computation that leaves both stores as they are. *)
Definition leaves_store {A} (c : M A) : Prop :=
  ∀ w r w', c w = (r, w') → db w' = db w ∧ committed w' = committed w.

(** A computation that keeps every document of the running transaction's
    store at its place, with all its fields but [installation_record]. *)
Definition keeps_documents {A} (c : M A) : Prop :=
  ∀ w r w' i row, c w = (r, w') → db w !! i = Some row →
    ∃ row', db w' !! i = Some row' ∧
            ∀ k, k ≠ "installation_record" → row' !! k = row !! k.

(** The doctypes that [doc_events] has an entry for. *)
Definition registered_doctypes : list string :=
  ["Wastewater System Design"; "Production Order"; "Installation Record";
   "Maintenance Log"; "Manufactured Component"].

(** The mail of the monthly report, with the PDF [pdf] attached. *)
Definition report_mail (pdf : string) : Mail :=
  mkMail [VStr "maintenance@example.com"] "Monthly Maintenance Report"
    "Please find attached the monthly maintenance report."
    [("Maintenance_Report.pdf", VBytes pdf)].

Definition component_MC1 : Doc := get_doc [
  ("doctype", VStr "Manufactured Component"); ("name", VStr "MC-1");
  ("component_id", VStr "C-7")].

(** The [job_card_id] that [create_job_card] builds. *)
Definition job_card_id_of (inst_name scheduled_date : Value) : Value :=
  VStr ("JC-" +:+ py_str inst_name +:+ "-" +:+ py_str scheduled_date).

(** An event that takes nothing back: every event but a [db_set]. *)
Definition no_db_set (e : Event) : bool :=
  match e with
  | EvDbSet _ _ _ _ => false
  | _ => true
  end.

(** A framework that refuses every insert once the store holds [limit]
    documents, and otherwise answers like [test_frappe]. *)
Definition full_frappe (limit : nat) : Frappe := {|
  fw_insert_error d w :=
    if (limit <=? length (db w))%nat
    then Some (FrameworkError "insert refused") else None;
  fw_autoname := name_for;
  fw_db_set_error _ _ _ _ := None;
  fw_render_template path _ _ := Ok ("<html>" +:+ path +:+ "</html>");
  fw_get_pdf html _ := Ok ("%PDF " +:+ html);
  fw_sendmail_error _ _ := None;
  fw_generate_hash _ := "0a1b2c3d";
  fw_getdate_other _ _ := Raise (FrameworkError "unsupported date");
  fw_add_to_date_other _ _ _ _ := Raise (FrameworkError "unsupported date")
|}.

(** A Maintenance Log submitted with an empty [maintenance_id] and an
    empty [activity]. *)
Definition maintenance_log_ML2 : Doc := get_doc [
  ("doctype", VStr "Maintenance Log"); ("name", VStr "ML-2");
  ("maintenance_id", VStr ""); ("equipment", VStr "Pump 3");
  ("activity", VStr "")].




(** * Properties *)

(** ** Dates *)

Lemma digit_val_char (k : Z) : 0 <= k < 10 → digit_val (digit_char k) = Some k.
Proof.
  intros Hk.
  assert (Hcases : k = 0 ∨ k = 1 ∨ k = 2 ∨ k = 3 ∨ k = 4 ∨
                   k = 5 ∨ k = 6 ∨ k = 7 ∨ k = 8 ∨ k = 9) by lia.
  repeat (destruct Hcases as [-> | Hcases]; [reflexivity |]).
  subst k. reflexivity.
Qed.

Lemma num2_pad (n : Z) (a b : ascii) (rest : string) :
  0 <= n < 100 →
  pad2 n rest = String a (String b rest) → num2 a b = Some n.
Proof.
  intros Hn Heq. unfold pad2 in Heq. injection Heq as <- <-.
  unfold num2.
  rewrite !digit_val_char by (apply Z.mod_pos_bound; lia).
  f_equal. Z.to_euclidean_division_equations. lia.
Qed.

Lemma num4_pad (n : Z) :
  0 <= n < 10000 →
  num4 (digit_char (n / 1000 mod 10)) (digit_char (n / 100 mod 10))
       (digit_char (n / 10 mod 10)) (digit_char (n mod 10)) = Some n.
Proof.
  intros Hn. unfold num4, num2.
  rewrite !digit_val_char by (apply Z.mod_pos_bound; lia).
  f_equal. Z.to_euclidean_division_equations. lia.
Qed.

Lemma days_in_month_bounds (y m : Z) : 28 <= days_in_month y m <= 31.
Proof.
  unfold days_in_month.
  repeat match goal with |- context [if ?b then _ else _] => destruct b end; lia.
Qed.

Lemma valid_date_bounds (d : Date) :
  valid_date d = true →
  1 <= year d <= 9999 ∧ 1 <= month d <= 12 ∧
  1 <= day d <= days_in_month (year d) (month d).
Proof. unfold valid_date. rewrite !andb_true_iff. lia. Qed.

(** Formatting a date and parsing it back gives the date. *)
Lemma parse_iso_date_str (d : Date) :
  valid_date d = true → parse_iso (date_str d) = Some d.
Proof.
  intros Hv. pose proof (valid_date_bounds d Hv) as (Hy & Hm & Hd).
  pose proof (days_in_month_bounds (year d) (month d)).
  unfold date_str, pad4, parse_iso. unfold pad2 at 1.
  rewrite (num4_pad (year d)) by lia.
  unfold pad2.
  rewrite (num2_pad (month d) _ _ "" ) by (first [lia | reflexivity]).
  rewrite (num2_pad (day d) _ _ "") by (first [lia | reflexivity]).
  destruct d as [y m dd]. simpl in *. cbv zeta. rewrite Hv. reflexivity.
Qed.

Lemma parse_iso_valid (s : string) (d : Date) :
  parse_iso s = Some d → valid_date d = true.
Proof.
  unfold parse_iso. intros H.
  repeat match type of H with
         | match ?x with _ => _ end = _ => destruct x eqn:?; try discriminate H
         | (if ?x then _ else _) = _ => destruct x eqn:?; try discriminate H
         end.
  injection H as <-. assumption.
Qed.

Lemma relativedelta_valid (d d' : Date) (ys ms : Z) :
  valid_date d = true → relativedelta d ys ms = Some d' → valid_date d' = true.
Proof.
  intros Hv. pose proof (valid_date_bounds d Hv) as (Hy & Hm & Hd).
  unfold relativedelta.
  destruct (_ && _) eqn:Hr; [| discriminate]. intros [= <-].
  apply andb_true_iff in Hr as [Hr1 Hr2].
  pose proof (Z.mod_pos_bound (month d - 1 + ms) 12 ltac:(lia)).
  pose proof (days_in_month_bounds
                (year d + ys + (month d - 1 + ms) / 12)
                ((month d - 1 + ms) mod 12 + 1)).
  unfold valid_date. simpl. rewrite !andb_true_iff. lia.
Qed.

(** In range, the shift by [ms] months succeeds. *)
Lemma relativedelta_some (d : Date) (ms : Z) :
  valid_date d = true → 0 <= ms <= 12 → year d < 9999 →
  ∃ d', relativedelta d 0 ms = Some d'.
Proof.
  intros Hv Hms Hy. pose proof (valid_date_bounds d Hv) as (Hy' & Hm & Hd).
  unfold relativedelta.
  assert (0 <= (month d - 1 + ms) / 12 <= 1) as Hq.
  { split; [apply Z.div_pos; lia |].
    apply Z.lt_succ_r, Z.div_lt_upper_bound; lia. }
  destruct (_ && _) eqn:Hr; [eauto |].
  apply andb_false_iff in Hr. lia.
Qed.

(** ** Running the hooks symbolically *)

Ltac run_step :=
  first
    [ progress cbn beta iota zeta
    | progress unfold emit, with_db, with_committed
    | progress cbn [fst snd db committed events today session_user]
    | rewrite lookup_insert_eq ].

Ltac run := repeat run_step.

Section Creation.
Context (F : Frappe).

Lemma getdate_date_of (v : Value) (d : Date) (w : World) :
  date_of v = Some d → d ≠ mkDate 1 1 1 →
  getdate F v w = (Ok (VDate d), w).
Proof.
  intros Hv Hd. unfold getdate.
  destruct v; try discriminate Hv; simpl in Hv.
  - rewrite Hv. by rewrite bool_decide_eq_false_2.
  - by injection Hv as ->.
Qed.

Lemma create_job_card_created (inst : Doc) (n sd : Value) (mt : string)
    (em : bool) (w : World) :
  inst !! "name" = Some n →
  accepts_inserts F "Job Card" →
  ∃ jc msg,
    create_job_card F inst sd mt em w = (Ok tt, created w jc msg) ∧
    jc !! "doctype" = Some (VStr "Job Card") ∧
    jc !! "installation_record" = Some n ∧
    jc !! "scheduled_date" = Some sd ∧
    jc !! "maintenance_type" = Some (VStr mt) ∧
    jc !! "emergency" = Some (VBool em).
Proof.
  intros Hn Hacc.
  unfold create_job_card, try_except, bind, getattr.
  rewrite Hn. run. unfold doc_insert. rewrite Hacc by reflexivity.
  run. unfold db_commit, msgprint. run.
  eexists _, _. split.
  - unfold created. rewrite <- !app_assoc. reflexivity.
  - repeat split; reflexivity.
Qed.

Lemma inserted_app (evs1 evs2 : list Event) :
  inserted (evs1 ++ evs2) = (inserted evs1 ++ inserted evs2)%list.
Proof. apply omap_app. Qed.

(** The loop of [create_maintenance_schedule] over intervals in range: one
    Job Card per interval, in order. *)
Lemma schedule_loop (inst : Doc) (n : Value) (d0 : Date) (ms : list Z)
    (w : World) :
  inst !! "name" = Some n →
  accepts_inserts F "Job Card" →
  Forall (fun m => is_Some (relativedelta d0 0 m)) ms →
  ∃ jcs w',
    for_each ms (fun months =>
      scheduled_date <- add_months F (VDate d0) months ;;
      create_job_card F inst scheduled_date "Scheduled Maintenance" false) w
    = (Ok tt, w') ∧
    db w' = (db w ++ jcs)%list ∧
    committed w' = match ms with [] => committed w | _ => db w' end ∧
    inserted (events w') = (inserted (events w) ++ jcs)%list ∧
    Forall2 (scheduled_job_card inst d0) ms jcs.
Proof.
  intros Hn Hacc Hms. revert w.
  induction Hms as [| m ms [d Hd] Hms IH]; intros w.
  - exists [], w. rewrite !app_nil_r. by repeat split.
  - destruct (create_job_card_created inst n (VDate d) "Scheduled Maintenance"
                false w Hn Hacc) as (jc & msg & Hrun & Hdt & Hir & Hsd & Hmt & _).
    destruct (IH (created w jc msg))
      as (jcs & w' & Hloop & Hdb & Hco & Hin & Hall).
    exists (jc :: jcs), w'. split; [| split; [| split; [| split]]].
    + cbn [for_each]. unfold bind at 1. unfold bind at 1.
      unfold add_months, add_to_date. rewrite Hd, Hrun. exact Hloop.
    + rewrite Hdb. cbn [created db]. by rewrite <- app_assoc.
    + rewrite Hco. destruct ms; [| done].
      apply Forall2_nil_inv_l in Hall as ->. rewrite Hdb. cbn [created db committed].
      by rewrite app_nil_r.
    + rewrite Hin. cbn [created events]. rewrite inserted_app.
      by rewrite <- app_assoc.
    + constructor; [| exact Hall].
      unfold scheduled_job_card. rewrite Hd, Hn. by eauto.
Qed.

Lemma schedule_intervals_in_range (d0 : Date) :
  valid_date d0 = true → year d0 < 9999 →
  Forall (fun m => is_Some (relativedelta d0 0 m)) schedule_intervals.
Proof.
  intros Hv Hy. unfold schedule_intervals.
  repeat constructor; apply relativedelta_some; (assumption || lia).
Qed.

Lemma create_maintenance_schedule_created (inst : Doc) (n idate : Value)
    (d0 : Date) (w : World) :
  inst !! "name" = Some n →
  inst !! "installation_date" = Some idate →
  date_of idate = Some d0 → d0 ≠ mkDate 1 1 1 →
  valid_date d0 = true → year d0 < 9999 →
  accepts_inserts F "Job Card" →
  ∃ jcs w',
    create_maintenance_schedule F inst w = (Ok tt, w') ∧
    db w' = (db w ++ jcs)%list ∧
    committed w' = db w' ∧
    inserted (events w') = (inserted (events w) ++ jcs)%list ∧
    Forall2 (scheduled_job_card inst d0) schedule_intervals jcs.
Proof.
  intros Hn Hidate Hd0 Hne Hv Hy Hacc.
  destruct (schedule_loop inst n d0 schedule_intervals w Hn Hacc
              (schedule_intervals_in_range d0 Hv Hy))
    as (jcs & w' & Hloop & Hdb & Hco & Hin & Hall).
  exists jcs, w'. repeat split; try assumption.
  unfold create_maintenance_schedule, try_except.
  unfold bind at 1, getattr. rewrite Hidate.
  unfold bind at 1. rewrite (getdate_date_of idate d0 w Hd0 Hne).
  by rewrite Hloop.
Qed.

(** C1. A Production Order with status "Completed" and no linked
    Installation Record: [create_installation_record] creates the
    Installation Record [inst], dated today, and its call of
    [create_maintenance_schedule] on [inst] creates exactly four Job Cards,
    with [scheduled_date] the installation date plus 3, 6, 9 and 12 months,
    each with [maintenance_type] "Scheduled Maintenance". *)
Theorem C1_quarterly_job_cards (doc : Doc) (method : string) (w : World)
    (name : Value) :
  doc !! "status" = Some (VStr "Completed") →
  py_truthy (doc_get doc "installation_record" VNone) = false →
  doc !! "name" = Some name →
  is_Some (doc !! "doctype") →
  valid_date (today w) = true →
  1000 <= year (today w) < 9999 →
  accepts_inserts F "Installation Record" →
  accepts_inserts F "Job Card" →
  db_set_works F →
  ∃ inst w1 jcs doc' w',
    create_installation_record F doc method w = (Ok doc', w') ∧
    inst !! "doctype" = Some (VStr "Installation Record") ∧
    inst !! "production_order" = Some name ∧
    inst !! "installation_date" = Some (VStr (date_str (today w))) ∧
    date_of (VStr (date_str (today w))) = Some (today w) ∧
    inserted (events w1) = (inserted (events w) ++ [inst])%list ∧
    create_maintenance_schedule F inst w1 = (Ok tt, w') ∧
    db w' = (db w1 ++ jcs)%list ∧
    committed w' = db w' ∧
    inserted (events w') = (inserted (events w1) ++ jcs)%list ∧
    Forall2 (scheduled_job_card inst (today w)) [3; 6; 9; 12] jcs.
Proof.
  intros Hst Hlink Hname [dt Hdt] Hv Hy HaccI HaccJ Hset.
  unfold create_installation_record, try_except.
  unfold bind at 1, getattr at 1. rewrite Hst.
  cbn [py_eq_str String.eqb Ascii.eqb Bool.eqb]. rewrite Hlink. cbn [negb andb].
  unfold bind at 1, getattr at 1. rewrite Hname.
  unfold bind at 1, nowdate. unfold bind at 1, frappe_session_user.
  unfold bind at 1, doc_insert. rewrite HaccI by reflexivity. run.
  unfold bind at 1, getattr at 1. rewrite lookup_insert_eq.
  unfold bind at 1, db_set, bind, getattr. rewrite Hdt, Hname, Hset. run.
  rewrite lookup_insert_ne by done. rewrite Hname. run.
  unfold db_commit, msgprint. run.
  match goal with
  | |- context [create_maintenance_schedule F ?i0 ?w0] =>
      set (w1 := w0); set (inst := i0)
  end.
  destruct (create_maintenance_schedule_created inst
              (VStr (fw_autoname F
                       (get_doc
                          [("doctype", VStr "Installation Record");
                           ("production_order", name);
                           ("system_design", doc_get doc "wastewater_design" VNone);
                           ("installation_date", VStr (date_str (today w)));
                           ("installed_by", VStr (session_user w));
                           ("status", VStr "Scheduled")]) w))
              (VStr (date_str (today w))) (today w) w1)
    as (jcs & w' & Hrun & Hdb & Hco & Hin & Hall).
  { apply lookup_insert_eq. }
  { reflexivity. }
  { cbn [date_of]. by apply parse_iso_date_str. }
  { intros Heq. rewrite Heq in Hy. cbn in Hy. lia. }
  { assumption. }
  { lia. }
  { assumption. }
  exists inst, w1, jcs. eexists _, w'. rewrite Hrun. cbn beta iota.
  split; [reflexivity |]. split; [reflexivity |]. split; [reflexivity |].
  split; [reflexivity |]. split; [by apply parse_iso_date_str |]. split.
  { subst w1. cbn [events]. rewrite !inserted_app. cbn. by rewrite !app_nil_r. }
  by repeat split.
Qed.

(** C8. [handle_emergency_job_card] creates one Job Card dated today
    ([nowdate()]), of type "Emergency Maintenance", flagged as emergency. *)
Theorem C8_emergency_job_card (installation_record : Doc) (details : string)
    (w : World) :
  is_Some (installation_record !! "name") →
  accepts_inserts F "Job Card" →
  ∃ jc w',
    handle_emergency_job_card F installation_record details w = (Ok tt, w') ∧
    db w' = (db w ++ [jc])%list ∧
    committed w' = db w' ∧
    inserted (events w') = (inserted (events w) ++ [jc])%list ∧
    jc !! "doctype" = Some (VStr "Job Card") ∧
    jc !! "installation_record" = installation_record !! "name" ∧
    jc !! "scheduled_date" = Some (VStr (date_str (today w))) ∧
    jc !! "maintenance_type" = Some (VStr "Emergency Maintenance") ∧
    jc !! "emergency" = Some (VBool true).
Proof.
  intros [n Hn] Hacc.
  destruct (create_job_card_created installation_record n
              (VStr (date_str (today w))) "Emergency Maintenance" true w Hn Hacc)
    as (jc & msg & Hrun & Hdt & Hir & Hsd & Hmt & Hem).
  exists jc. eexists. split.
  - unfold handle_emergency_job_card, try_except, bind, nowdate.
    rewrite Hrun. unfold msgprint. reflexivity.
  - rewrite Hn. unfold emit, created. cbn [db committed events].
    rewrite !inserted_app. cbn. rewrite app_nil_r. by repeat split.
Qed.

Lemma one_year_later (d : Date) :
  valid_date d = true → year d < 9999 →
  relativedelta d 1 0 =
  Some (mkDate (year d + 1) (month d)
               (Z.min (day d) (days_in_month (year d + 1) (month d)))).
Proof.
  intros Hv Hy. pose proof (valid_date_bounds d Hv) as (Hy' & Hm & Hd).
  unfold relativedelta.
  replace ((month d - 1 + 0) / 12) with 0
    by (symmetry; apply Z.div_small; lia).
  replace ((month d - 1 + 0) mod 12 + 1) with (month d)
    by (rewrite Z.mod_small; lia).
  replace (year d + 1 + 0) with (year d + 1) by lia.
  destruct (_ && _) eqn:Hr; [done |].
  apply andb_false_iff in Hr. lia.
Qed.

(** C2. An Installation Record with status "Installed":
    [create_warranty_record] creates exactly one Warranty Record, whose
    [start_date] is the [installation_date], whose [end_date] stands for
    the installation date plus one year, and whose status is "Active". *)
Theorem C2_warranty_record (doc : Doc) (method : string) (w : World)
    (name idate : Value) (d : Date) :
  doc !! "status" = Some (VStr "Installed") →
  doc !! "name" = Some name →
  doc !! "installation_date" = Some idate →
  date_of idate = Some d →
  valid_date d = true →
  1000 <= year d < 9999 →
  accepts_inserts F "Warranty Record" →
  ∃ wr end_date d1 w',
    create_warranty_record F doc method w = (Ok tt, w') ∧
    db w' = (db w ++ [wr])%list ∧
    committed w' = db w' ∧
    inserted (events w') = (inserted (events w) ++ [wr])%list ∧
    wr !! "doctype" = Some (VStr "Warranty Record") ∧
    wr !! "installation_record" = Some name ∧
    wr !! "start_date" = Some idate ∧
    wr !! "end_date" = Some end_date ∧
    date_of end_date = Some d1 ∧
    relativedelta d 1 0 = Some d1 ∧
    d1 = mkDate (year d + 1) (month d)
                (Z.min (day d) (days_in_month (year d + 1) (month d))) ∧
    wr !! "status" = Some (VStr "Active").
Proof.
  intros Hst Hname Hidate Hd Hv Hy Hacc.
  pose proof (one_year_later d Hv ltac:(lia)) as Hd1.
  set (d1 := mkDate _ _ _) in Hd1.
  assert (∃ end_date, add_years F idate 1 w = (Ok end_date, w) ∧
                      date_of end_date = Some d1) as (end_date & Hadd & Hend).
  { unfold add_years, add_to_date.
    destruct idate; try discriminate Hd; cbn [date_of] in Hd.
    - rewrite Hd, Hd1.
      replace (1000 <=? year d1) with true
        by (symmetry; apply Z.leb_le; subst d1; cbn [year]; lia).
      eexists. split; [reflexivity |]. cbn [date_of].
      apply parse_iso_date_str. by eapply relativedelta_valid.
    - injection Hd as ->. rewrite Hd1. by eexists. }
  unfold create_warranty_record, try_except.
  unfold bind at 1, getattr at 1. rewrite Hst.
  cbn [py_eq_str String.eqb Ascii.eqb Bool.eqb].
  unfold bind at 1, getattr at 1. rewrite Hidate.
  unfold bind at 1. rewrite Hadd.
  unfold bind, getattr. rewrite Hname, Hidate. run.
  unfold doc_insert. rewrite Hacc by reflexivity. run.
  unfold db_commit, msgprint. run.
  eexists _, end_date, d1, _. split; [reflexivity |].
  cbn [db committed events]. rewrite <- !app_assoc, inserted_app.
  repeat split; try reflexivity; assumption.
Qed.

End Creation.

(** ** The store is what the events make it *)

Lemma replay_app (evs1 evs2 : list Event) (s : list Doc * list Doc) :
  replay (evs1 ++ evs2) s = replay evs2 (replay evs1 s).
Proof. apply foldl_app. Qed.


Lemma tracks_read {A} (c : M A) :
  (∀ w, (c w).2 = w) → tracks c.
Proof.
  intros Hread w r w' Hrun. specialize (Hread w). rewrite Hrun in Hread.
  cbn in Hread. subst w'. exists []. by rewrite app_nil_r.
Qed.

Lemma tracks_events {A} (c : M A) :
  (∀ w, ∃ evs, (c w).2 = mkWorld (db w) (committed w) (events w ++ evs)
                           (today w) (session_user w) ∧
               replay evs (db w, committed w) = (db w, committed w)) →
  tracks c.
Proof.
  intros Hc w r w' Hrun. destruct (Hc w) as (evs & Hw & Hre).
  rewrite Hrun in Hw. cbn in Hw. subst w'. exists evs. by rewrite Hre.
Qed.

Lemma tracks_ret {A} (a : A) : tracks (ret a).
Proof. by apply tracks_read. Qed.

Lemma tracks_raise {A} (e : Exn) : tracks (@raise A e).
Proof. by apply tracks_read. Qed.

Lemma tracks_bind {A B} (c : M A) (k : A → M B) :
  tracks c → (∀ a, tracks (k a)) → tracks (bind c k).
Proof.
  intros Hc Hk w r w' Hrun. unfold bind in Hrun.
  destruct (c w) as [[a|e] w1] eqn:Hcw.
  - destruct (Hc _ _ _ Hcw) as (evs1 & He1 & Hs1).
    destruct (Hk a _ _ _ Hrun) as (evs2 & He2 & Hs2).
    exists (evs1 ++ evs2)%list. split.
    + by rewrite He2, He1, app_assoc.
    + by rewrite replay_app, <- Hs1.
  - injection Hrun as <- <-. by apply (Hc _ _ _ Hcw).
Qed.

Lemma tracks_try_except {A} (body : M A) (handler : Exn → M A) :
  tracks body → (∀ e, tracks (handler e)) → tracks (try_except body handler).
Proof.
  intros Hb Hh w r w' Hrun. unfold try_except in Hrun.
  destruct (body w) as [[a|e] w1] eqn:Hbw.
  - injection Hrun as <- <-. by apply (Hb _ _ _ Hbw).
  - destruct (Hb _ _ _ Hbw) as (evs1 & He1 & Hs1).
    destruct (Hh e _ _ _ Hrun) as (evs2 & He2 & Hs2).
    exists (evs1 ++ evs2)%list. split.
    + by rewrite He2, He1, app_assoc.
    + by rewrite replay_app, <- Hs1.
Qed.

Lemma tracks_for_each {A} (xs : list A) (body : A → M unit) :
  (∀ x, tracks (body x)) → tracks (for_each xs body).
Proof.
  intros Hb. induction xs as [| x xs IH]; cbn [for_each].
  - apply tracks_ret.
  - apply tracks_bind; [apply Hb | intros _; exact IH].
Qed.

Lemma tracks_for_fold {A B} (xs : list A) (acc : B) (body : B → A → M B) :
  (∀ acc x, tracks (body acc x)) → tracks (for_fold xs acc body).
Proof.
  intros Hb. revert acc. induction xs as [| x xs IH]; intros acc; cbn [for_fold].
  - apply tracks_ret.
  - apply tracks_bind; [apply Hb | intros acc'; apply IH].
Qed.

Section Transactions.
Context (F : Frappe).

Lemma tracks_getattr (d : Doc) (attr : string) : tracks (getattr d attr).
Proof. apply tracks_read. intros w. unfold getattr. by destruct (d !! attr). Qed.

Lemma tracks_nowdate : tracks nowdate.
Proof. by apply tracks_read. Qed.

Lemma tracks_session_user : tracks frappe_session_user.
Proof. by apply tracks_read. Qed.

Lemma tracks_generate_hash : tracks (generate_hash F).
Proof. by apply tracks_read. Qed.

Lemma tracks_getdate (v : Value) : tracks (getdate F v).
Proof.
  apply tracks_read. intros w. unfold getdate.
  repeat case_match; reflexivity.
Qed.

Lemma tracks_add_to_date (v : Value) (ys ms : Z) : tracks (add_to_date F v ys ms).
Proof.
  apply tracks_read. intros w. unfold add_to_date.
  repeat case_match; reflexivity.
Qed.

Lemma tracks_render_template (path : string) (doc : option Doc) :
  tracks (render_template F path doc).
Proof. by apply tracks_read. Qed.

Lemma tracks_get_pdf (html : string) : tracks (get_pdf F html).
Proof. by apply tracks_read. Qed.

Lemma tracks_get_all (doctype : string) (filters : list (string * Value))
    (fields : list string) : tracks (get_all doctype filters fields).
Proof. by apply tracks_read. Qed.

Lemma tracks_db_get_value (doctype : string) (name : Value) (field : string) :
  tracks (db_get_value doctype name field).
Proof. by apply tracks_read. Qed.

Lemma tracks_msgprint (msg : string) : tracks (msgprint msg).
Proof. apply tracks_events. intros w. by exists [EvMsgprint msg]. Qed.

Lemma tracks_log_error (msg title : string) : tracks (log_error msg title).
Proof. apply tracks_events. intros w. by exists [EvLogError title msg]. Qed.

Lemma tracks_throw {A} (msg : string) : tracks (@throw A msg).
Proof. apply tracks_events. intros w. by exists [EvMsgprint msg]. Qed.

Lemma tracks_sendmail (m : Mail) : tracks (sendmail F m).
Proof.
  intros w r w' Hrun. unfold sendmail in Hrun.
  destruct (fw_sendmail_error F m w); injection Hrun as <- <-.
  - exists []. by rewrite app_nil_r.
  - by exists [EvSendmail m].
Qed.

Lemma tracks_doc_insert (d : Doc) : tracks (doc_insert F d).
Proof.
  intros w r w' Hrun. unfold doc_insert in Hrun.
  destruct (fw_insert_error F d w); injection Hrun as <- <-.
  - exists []. by rewrite app_nil_r.
  - by eexists [EvInsert _].
Qed.

Lemma tracks_db_commit : tracks db_commit.
Proof. intros w r w' [= <- <-]. by exists [EvCommit]. Qed.

Lemma tracks_db_set (doc : Doc) (field : string) (v : Value) :
  tracks (db_set F doc field v).
Proof.
  unfold db_set.
  apply tracks_bind; [apply tracks_getattr | intros doctype].
  apply tracks_bind; [apply tracks_getattr | intros name].
  intros w r w' Hrun.
  destruct (fw_db_set_error F doc field v w); injection Hrun as <- <-.
  - exists []. by rewrite app_nil_r.
  - by exists [EvDbSet doctype name field v].
Qed.

End Transactions.

Create HintDb tracks.
#[export] Hint Resolve tracks_ret tracks_raise tracks_getattr tracks_nowdate
  tracks_session_user tracks_generate_hash tracks_getdate tracks_add_to_date
  tracks_render_template tracks_get_pdf tracks_get_all tracks_db_get_value
  tracks_msgprint tracks_log_error tracks_throw tracks_sendmail
  tracks_doc_insert tracks_db_commit tracks_db_set : tracks.

Ltac tracks_step :=
  first
    [ solve [auto with tracks]
    | apply tracks_try_except; [| intros ?]
    | apply tracks_for_each; intros ?
    | apply tracks_for_fold; intros ? ?
    | apply tracks_bind; [| intros ?]
    | match goal with
      | |- tracks (if ?b then _ else _) => destruct b
      | |- tracks (match ?x with _ => _ end) => destruct x
      | |- tracks (let _ := _ in _) => cbv zeta
      end ].

Ltac solve_tracks := repeat tracks_step.

Section HooksTrack.
Context (F : Frappe).

Lemma tracks_create_job_card (inst : Doc) (sd : Value) (mt : string) (em : bool) :
  tracks (create_job_card F inst sd mt em).
Proof. unfold create_job_card. solve_tracks. Qed.

Lemma tracks_create_maintenance_schedule (inst : Doc) :
  tracks (create_maintenance_schedule F inst).
Proof.
  pose proof tracks_create_job_card.
  unfold create_maintenance_schedule, add_months. solve_tracks.
Qed.

Lemma tracks_create_production_order (doc : Doc) (method : string) :
  tracks (create_production_order F doc method).
Proof. unfold create_production_order. solve_tracks. Qed.

Lemma tracks_send_design_approval_email (doc : Doc) (method : string) :
  tracks (send_design_approval_email F doc method).
Proof. unfold send_design_approval_email. solve_tracks. Qed.

Lemma tracks_attach_design_pdf (doc : Doc) (method : string) :
  tracks (attach_design_pdf F doc method).
Proof. unfold attach_design_pdf. solve_tracks. Qed.

Lemma tracks_create_installation_record (doc : Doc) (method : string) :
  tracks (create_installation_record F doc method).
Proof.
  pose proof tracks_create_maintenance_schedule.
  unfold create_installation_record. solve_tracks.
Qed.

Lemma tracks_create_warranty_record (doc : Doc) (method : string) :
  tracks (create_warranty_record F doc method).
Proof. unfold create_warranty_record, add_years. solve_tracks. Qed.

Lemma tracks_handle_emergency_job_card (inst : Doc) (details : string) :
  tracks (handle_emergency_job_card F inst details).
Proof.
  pose proof tracks_create_job_card.
  unfold handle_emergency_job_card. solve_tracks.
Qed.

Lemma tracks_log_maintenance_activity (doc : Doc) (method : string) :
  tracks (log_maintenance_activity F doc method).
Proof. unfold log_maintenance_activity. solve_tracks. Qed.

Lemma tracks_update_inventory (doc : Doc) (method : string) :
  tracks (update_inventory_on_component_production doc method).
Proof. unfold update_inventory_on_component_production. solve_tracks. Qed.

Lemma tracks_generate_maintenance_report :
  tracks (generate_maintenance_report F).
Proof. unfold generate_maintenance_report. solve_tracks. Qed.



Lemma tracks_get_attr (path : string) (handler : Handler) (doc : Doc)
    (method : string) :
  get_attr F path = Some handler → tracks (handler doc method).
Proof.
  pose proof tracks_create_production_order.
  pose proof tracks_send_design_approval_email.
  pose proof tracks_attach_design_pdf.
  pose proof tracks_create_installation_record.
  pose proof tracks_create_warranty_record.
  pose proof tracks_log_maintenance_activity.
  pose proof tracks_update_inventory.
  unfold get_attr, same_object.
  repeat case_match; intros [= <-]; solve_tracks.
Qed.

Lemma tracks_call_handlers (paths : list string) (doc : Doc) (method : string) :
  tracks (call_handlers F paths doc method).
Proof.
  revert doc. induction paths as [| path paths IH]; intros doc; cbn [call_handlers].
  - apply tracks_ret.
  - destruct (get_attr F path) as [handler|] eqn:Hget; [| apply tracks_raise].
    apply tracks_bind; [by eapply tracks_get_attr | intros doc'; apply IH].
Qed.

Lemma tracks_run_doc_event (doc : Doc) (event : string) :
  tracks (run_doc_event F doc event).
Proof.
  unfold run_doc_event. repeat case_match; first [apply tracks_ret | apply tracks_call_handlers].
Qed.

End HooksTrack.

(** ** Guards and repeated runs *)

Section Guards.
Context (F : Frappe).

(** The handler of every hook but [generate_maintenance_report] ends in
    [frappe.throw]: it never returns normally. *)
Lemma log_and_throw_raises {A} (title msg : string) (e : Exn) (w : World) :
  (log_error (exn_str e) title ;; @throw A msg) w =
  (Raise (ValidationError msg),
   emit (emit w (EvLogError title (exn_str e))) (EvMsgprint msg)).
Proof. reflexivity. Qed.

(** With the guard of [create_installation_record] false, the hook does
    nothing. *)
Lemma create_installation_record_skips (doc : Doc) (method : string)
    (w : World) (status : Value) :
  doc !! "status" = Some status →
  py_eq_str status "Completed" &&
    negb (py_truthy (doc_get doc "installation_record" VNone)) = false →
  create_installation_record F doc method w = (Ok doc, w).
Proof.
  intros Hst Hguard. unfold create_installation_record, try_except.
  unfold bind at 1, getattr at 1. rewrite Hst, Hguard. reflexivity.
Qed.

(** What a normal return of [create_installation_record] means: either the
    guard was false and nothing happened, or the guard was true, a record
    [inst] was inserted first and its name was written to the
    [installation_record] field of the Production Order. *)
Lemma create_installation_record_ok_inv (doc doc' : Doc) (method : string)
    (w w' : World) :
  create_installation_record F doc method w = (Ok doc', w') →
  ∃ status, doc !! "status" = Some status ∧
    ((py_eq_str status "Completed" &&
        negb (py_truthy (doc_get doc "installation_record" VNone)) = false ∧
      doc' = doc ∧ w' = w) ∨
     (py_eq_str status "Completed" = true ∧
      py_truthy (doc_get doc "installation_record" VNone) = false ∧
      ∃ inst nm evs,
        inst !! "doctype" = Some (VStr "Installation Record") ∧
        inst !! "name" = Some (VStr nm) ∧
        inst !! "production_order" = doc !! "name" ∧
        (∃ d0, nm = fw_autoname F d0 w) ∧
        events w' = (events w ++ EvInsert inst :: evs)%list ∧
        doc' = <["installation_record" := VStr nm]> doc)).
Proof.
  intros Hrun. unfold create_installation_record, try_except in Hrun.
  match type of Hrun with
  | (let (_, _) := ?body in _) = _ => destruct body as [[d1|e] w1] eqn:Hbody
  end.
  2:{ rewrite log_and_throw_raises in Hrun. discriminate Hrun. }
  injection Hrun as -> ->.
  unfold bind at 1, getattr at 1 in Hbody.
  destruct (doc !! "status") as [status|] eqn:Hst; [| discriminate Hbody].
  exists status. split; [reflexivity |].
  destruct (py_eq_str status "Completed" &&
            negb (py_truthy (doc_get doc "installation_record" VNone)))
    eqn:Hguard.
  2:{ left. injection Hbody as -> ->. done. }
  right. apply andb_true_iff in Hguard as [Hs Hl].
  apply negb_true_iff in Hl. do 2 (split; [assumption |]).
  unfold bind at 1, getattr at 1 in Hbody.
  destruct (doc !! "name") as [name|] eqn:Hname; [| discriminate Hbody].
  unfold bind at 1, nowdate in Hbody. unfold bind at 1, frappe_session_user in Hbody.
  unfold bind at 1, doc_insert in Hbody.
  destruct (fw_insert_error F _ w) eqn:Hins; [discriminate Hbody |].
  cbn beta iota zeta in Hbody.
  unfold bind at 1, getattr at 1 in Hbody. rewrite lookup_insert_eq in Hbody.
  unfold bind at 1, db_set in Hbody. unfold bind at 1, getattr at 1 in Hbody.
  destruct (doc !! "doctype") as [dt|] eqn:Hdt; [| discriminate Hbody].
  unfold bind at 1, getattr at 1 in Hbody. rewrite Hname in Hbody.
  destruct (fw_db_set_error F _ _ _ _) eqn:Hset; [discriminate Hbody |].
  cbn beta iota zeta in Hbody.
  unfold bind at 1, db_commit in Hbody.
  unfold bind at 1, getattr at 1 in Hbody. rewrite lookup_insert_eq in Hbody.
  unfold bind at 1, getattr at 1 in Hbody.
  rewrite lookup_insert_ne in Hbody by done. rewrite Hname in Hbody.
  unfold bind at 1, msgprint in Hbody.
  unfold bind at 1 in Hbody.
  match type of Hbody with
  | context [create_maintenance_schedule F ?i0 ?w0] =>
      remember w0 as w1 eqn:Hw1; remember i0 as inst eqn:Hinst;
      destruct (create_maintenance_schedule F inst w1) as [[[]|e] w2] eqn:Hsched
  end; [| discriminate Hbody].
  injection Hbody as <- ->.
  destruct (tracks_create_maintenance_schedule F inst w1 _ _ Hsched)
    as (evs & Hev & _).
  rewrite Hw1 in Hev. unfold emit, with_db, with_committed in Hev.
  cbn [events] in Hev. clear Hsched Hw1.
  eexists _, _, _.
  split; [| split; [| split; [| split; [| split]]]]; cycle 4.
  - rewrite <- !app_assoc in Hev. exact Hev.
  - reflexivity.
  - rewrite Hinst, lookup_insert_ne by done. reflexivity.
  - rewrite Hinst. apply lookup_insert_eq.
  - rewrite Hinst, lookup_insert_ne by done. reflexivity.
  - by eexists.
Qed.

(** After a normal return, a further run on the Production Order, be it
    the same object or one that carries the same status and link, does
    nothing. *)
Lemma create_installation_record_rerun (doc doc' doc2 : Doc)
    (method method2 : string) (w w' w2 : World) :
  names_nonempty F →
  create_installation_record F doc method w = (Ok doc', w') →
  doc2 !! "status" = doc' !! "status" →
  doc2 !! "installation_record" = doc' !! "installation_record" →
  create_installation_record F doc2 method2 w2 = (Ok doc2, w2).
Proof.
  intros Hnames Hrun Hst2 Hlink2.
  destruct (create_installation_record_ok_inv _ _ _ _ _ Hrun)
    as (status & Hst & [(Hguard & -> & ->) | (Hs & Hl & inst & nm & evs & Hi)]).
  - apply create_installation_record_skips with status; [congruence |].
    unfold doc_get in *. by rewrite Hlink2.
  - destruct Hi as (_ & _ & _ & (d0 & ->) & _ & ->).
    apply create_installation_record_skips with status.
    + rewrite Hst2. by rewrite lookup_insert_ne.
    + unfold doc_get. rewrite Hlink2, lookup_insert_eq. cbn [py_truthy].
      destruct (String.eqb_spec (fw_autoname F d0 w) "") as [Heq | _].
      * by destruct (Hnames d0 w).
      * apply andb_false_r.
Qed.

(** C9. [create_installation_record] writes the name of the new
    Installation Record to the [installation_record] field of the
    Production Order; once it has returned normally, a second invocation
    on that Production Order creates no Installation Record and no Job
    Card: it leaves the world as it is. *)
Theorem C9_second_run_creates_nothing (doc doc' : Doc) (method : string)
    (w w' : World) :
  names_nonempty F →
  create_installation_record F doc method w = (Ok doc', w') →
  (inserted (events w') ≠ inserted (events w) →
     ∃ inst, inst !! "doctype" = Some (VStr "Installation Record") ∧
             EvInsert inst ∈ events w' ∧
             is_Some (inst !! "name") ∧
             doc' !! "installation_record" = inst !! "name") ∧
  (∀ w2 method2,
     create_installation_record F doc' method2 w2 = (Ok doc', w2)) ∧
  (∀ doc2 w2 method2,
     doc2 !! "status" = doc' !! "status" →
     doc2 !! "installation_record" = doc' !! "installation_record" →
     create_installation_record F doc2 method2 w2 = (Ok doc2, w2)).
Proof.
  intros Hnames Hrun. split; [| split].
  - intros Hnew.
    destruct (create_installation_record_ok_inv _ _ _ _ _ Hrun)
      as (status & Hst & [(_ & _ & ->) | (_ & _ & inst & nm & evs & Hi)]);
      [done |].
    destruct Hi as (Hdt & Hnm & _ & _ & Hev & ->).
    exists inst. rewrite Hev, Hnm, lookup_insert_eq. repeat split; try done.
    apply elem_of_app. right. apply elem_of_cons. by left.
  - intros w2 method2. by eapply create_installation_record_rerun.
  - intros doc2 w2 method2 Hs Hl. by eapply create_installation_record_rerun.
Qed.

(** C6, as the code has it.  The creating hooks act only under their
    guard: a status check for [create_production_order] and
    [create_warranty_record], a status check and an existing-link check
    for [create_installation_record]; and the existing-link check is what
    limits a hook to one creation per triggering document: after a normal
    return of [create_installation_record], running it again creates
    nothing. *)
Theorem C6_creation_guards (doc : Doc) (method : string) (w : World)
    (status : Value) :
  doc !! "status" = Some status →
  (py_eq_str status "Approved" = false →
     create_production_order F doc method w = (Ok tt, w)) ∧
  (py_eq_str status "Installed" = false →
     create_warranty_record F doc method w = (Ok tt, w)) ∧
  (py_eq_str status "Completed" = false ∨
   py_truthy (doc_get doc "installation_record" VNone) = true →
     create_installation_record F doc method w = (Ok doc, w)) ∧
  (names_nonempty F →
   ∀ doc' w', create_installation_record F doc method w = (Ok doc', w') →
   ∀ method2 w2, create_installation_record F doc' method2 w2 = (Ok doc', w2)).
Proof.
  intros Hst. split; [| split; [| split]].
  - intros Hno. unfold create_production_order, try_except.
    unfold bind at 1, getattr at 1. by rewrite Hst, Hno.
  - intros Hno. unfold create_warranty_record, try_except.
    unfold bind at 1, getattr at 1. by rewrite Hst, Hno.
  - intros Hno. apply create_installation_record_skips with status; [done |].
    destruct Hno as [-> | ->]; [done | apply andb_false_r].
  - intros Hnames doc' w' Hrun method2 w2.
    by eapply create_installation_record_rerun.
Qed.

End Guards.

(** ** The hooks of a submitted design *)

Lemma row_matches_manager (row : Doc) :
  row_matches "Has Role" [("role", VStr "Production Manager")] row
  = is_production_manager row.
Proof.
  unfold row_matches, is_production_manager. cbn [forallb fst snd].
  by rewrite andb_true_r.
Qed.

Lemma find_app' {A} (f : A → bool) (l1 l2 : list A) :
  List.find f (l1 ++ l2) =
  match List.find f l1 with Some x => Some x | None => List.find f l2 end.
Proof.
  induction l1 as [| x l1 IH]; [done |]. cbn [app List.find].
  by destruct (f x).
Qed.

Lemma filter_none {A} (f : A → bool) (l : list A) :
  (∀ x, In x l → f x = false) → List.filter f l = [].
Proof.
  induction l as [| x l IH]; [done |]. intros Hall. cbn [List.filter].
  rewrite (Hall x) by (by left). apply IH. intros y Hy. apply Hall. by right.
Qed.

Lemma manager_emails_truthy (rows : list Doc) :
  Forall (fun v => py_truthy v = true) (manager_emails rows).
Proof.
  unfold manager_emails. apply Forall_forall. intros v Hv.
  apply list_elem_of_In, filter_In in Hv. tauto.
Qed.

(** A document of another doctype does not change who the managers are. *)
Lemma manager_emails_other (rows : list Doc) (d : Doc) (doctype : string) :
  d !! "doctype" = Some (VStr doctype) →
  doctype ≠ "Has Role" → doctype ≠ "User" →
  manager_emails (rows ++ [d]) = manager_emails rows.
Proof.
  intros Hd Hr Hu.
  assert (∀ u, email_of (rows ++ [d]) u = email_of rows u) as Hemail.
  { intros u. unfold email_of. rewrite find_app'.
    destruct (List.find _ rows); [done |]. cbn [List.find].
    unfold same_document. rewrite Hd.
    rewrite bool_decide_eq_false_2; [done |]. intros [[= ?] _]. done. }
  unfold manager_emails. rewrite List.filter_app. cbn [List.filter].
  unfold is_production_manager at 2. rewrite Hd.
  rewrite (bool_decide_eq_false_2 (Some (VStr doctype) = _))
    by (intros [= ?]; done).
  cbn [andb]. rewrite app_nil_r.
  f_equal. apply list_fmap_ext. intros _ row _. apply Hemail.
Qed.

Section Design.
Context (F : Frappe).

(** The loop over the Production Managers collects [manager_emails]. *)
Lemma recipients_loop (pms : list Doc) (acc : list Value) (w : World) :
  for_fold
    ((fun row => list_to_map ((fun f => (f, row_attr row f)) <$> ["parent"]))
       <$> pms)
    acc
    (fun recipients pm =>
       user_email <- db_get_value "User" (row_attr pm "parent") "email" ;;
       if py_truthy user_email then ret (recipients ++ [user_email])%list
       else ret recipients) w
  = (Ok (acc ++ List.filter py_truthy
                  ((fun row => email_of (db w) (row_attr row "parent"))
                     <$> pms))%list, w).
Proof.
  match goal with |- for_fold _ _ ?b _ = _ => set (body := b) end.
  revert acc. induction pms as [| pm pms IH]; intros acc.
  - cbn. by rewrite app_nil_r.
  - set (e := email_of (db w) (row_attr pm "parent")).
    assert (body acc
              (list_to_map ((fun f => (f, row_attr pm f)) <$> ["parent"])) w
            = (Ok (if py_truthy e then (acc ++ [e])%list else acc), w)) as Hstep.
    { subst body. cbn beta. unfold bind, db_get_value.
      replace (row_attr (list_to_map ((fun f => (f, row_attr pm f)) <$> ["parent"]))
                 "parent") with (row_attr pm "parent")
        by reflexivity.
      fold (email_of (db w) (row_attr pm "parent")). fold e.
      by destruct (py_truthy e). }
    rewrite fmap_cons. cbn [for_fold]. unfold bind at 1. rewrite Hstep.
    rewrite IH. rewrite fmap_cons. cbn [List.filter]. fold e.
    destruct (py_truthy e); [by rewrite <- app_assoc | done].
Qed.

(** What [send_design_approval_email] does on a design that has its
    [design_id] and [design_date]. *)
Lemma send_design_approval_email_run (doc : Doc) (method : string) (w : World)
    (design_id design_date : Value) :
  doc !! "design_id" = Some design_id →
  doc !! "design_date" = Some design_date →
  ∃ subject message,
    send_design_approval_email F doc method w =
    match manager_emails (db w) with
    | [] => (Ok tt, w)
    | r :: rs =>
        let m := mkMail (r :: rs) subject message [] in
        match fw_sendmail_error F m w with
        | None => (Ok tt, emit w (EvSendmail m))
        | Some e =>
            (Raise (ValidationError
                      "Failed to send email notification. Please check the system logs."),
             emit (emit w (EvLogError "Design Approval Email Failed" (exn_str e)))
                  (EvMsgprint
                     "Failed to send email notification. Please check the system logs."))
        end
    end.
Proof.
  intros Hid Hdate.
  exists ("Design Approved: " +:+ py_str design_id),
         ("Design " +:+ py_str design_id +:+ " approved on " +:+
          py_str design_date +:+
          ". Please review the production details in ERPNext.").
  unfold send_design_approval_email, try_except.
  unfold bind at 1, getattr at 1. rewrite Hid. cbn beta iota zeta.
  unfold bind at 1, getattr at 1. rewrite Hid. cbn beta iota zeta.
  unfold bind at 1, getattr at 1. rewrite Hdate. cbn beta iota zeta.
  unfold bind at 1, get_all.
  rewrite (List.filter_ext _ _ row_matches_manager).
  unfold bind at 1. rewrite recipients_loop. cbn [app].
  fold (manager_emails (db w)).
  destruct (manager_emails (db w)) as [| r rs]; [reflexivity |].
  unfold sendmail. cbn zeta.
  destruct (fw_sendmail_error F _ w); reflexivity.
Qed.

(** C10. When no user holding the role "Production Manager" has a
    non-empty e-mail address, [send_design_approval_email] sends nothing
    and returns normally, leaving the world as it is; and users with an
    empty address are never among the recipients: a mail that the function
    sends goes to [manager_emails], which holds no empty address. *)
Theorem C10_no_recipient_no_email (doc : Doc) (method : string) (w : World) :
  is_Some (doc !! "design_id") →
  is_Some (doc !! "design_date") →
  ((∀ row, row ∈ db w → is_production_manager row = true →
      py_truthy (email_of (db w) (row_attr row "parent")) = false) →
   send_design_approval_email F doc method w = (Ok tt, w)) ∧
  (∀ r w' m, send_design_approval_email F doc method w = (r, w') →
     m ∈ sent (events w') →
     m ∈ sent (events w) ∨
     (recipients m = manager_emails (db w) ∧ recipients m ≠ [])) ∧
  (VStr "" ∉ manager_emails (db w)) ∧ (VNone ∉ manager_emails (db w)).
Proof.
  intros [design_id Hid] [design_date Hdate].
  destruct (send_design_approval_email_run doc method w _ _ Hid Hdate)
    as (subject & message & Hrun).
  split; [| split; [| split]].
  - intros Hnone. rewrite Hrun.
    replace (manager_emails (db w)) with (@nil Value); [done |].
    symmetry. unfold manager_emails. apply filter_none.
    intros v Hv. apply in_map_iff in Hv as (row & <- & Hrow).
    apply filter_In in Hrow as [Hrow Hpm].
    apply Hnone; [by apply list_elem_of_In | done].
  - intros r w' m Hr Hm. rewrite Hrun in Hr.
    destruct (manager_emails (db w)) as [| r0 rs] eqn:Hms.
    + injection Hr as <- <-. by left.
    + cbn zeta in Hr. destruct (fw_sendmail_error F _ w).
      * injection Hr as <- <-. left. unfold emit in Hm. cbn [events] in Hm.
        unfold sent in *. rewrite <- app_assoc, omap_app in Hm. cbn in Hm.
        by rewrite app_nil_r in Hm.
      * injection Hr as <- <-. unfold emit in Hm. cbn [events] in Hm.
        unfold sent in *. rewrite omap_app in Hm. cbn in Hm.
        apply elem_of_app in Hm as [Hm | Hm]; [by left | right].
        apply list_elem_of_singleton in Hm as ->. done.
  - intros Hin. pose proof (manager_emails_truthy (db w)) as Hall.
    rewrite Forall_forall in Hall. by specialize (Hall _ Hin).
  - intros Hin. pose proof (manager_emails_truthy (db w)) as Hall.
    rewrite Forall_forall in Hall. by specialize (Hall _ Hin).
Qed.

End Design.

Section DesignSubmitted.
Context (F : Frappe).

Lemma create_production_order_created (doc : Doc) (method : string)
    (w : World) (status design_id name : Value) :
  doc !! "status" = Some status →
  py_eq_str status "Approved" = true →
  doc !! "design_id" = Some design_id →
  doc !! "name" = Some name →
  accepts_inserts F "Production Order" →
  ∃ po msg,
    create_production_order F doc method w = (Ok tt, created w po msg) ∧
    po !! "doctype" = Some (VStr "Production Order") ∧
    po !! "production_order_id" = Some design_id ∧
    po !! "wastewater_design" = Some name ∧
    po !! "status" = Some (VStr "Draft").
Proof.
  intros Hst Happ Hid Hname Hacc.
  unfold create_production_order, try_except.
  unfold bind at 1, getattr at 1. rewrite Hst, Happ.
  unfold bind, getattr. rewrite Hid, Hname. run.
  unfold nowdate, doc_insert. rewrite Hacc by reflexivity. run.
  unfold db_commit, msgprint. run.
  eexists _, _. split.
  - unfold created. rewrite <- !app_assoc. reflexivity.
  - repeat split; reflexivity.
Qed.

Lemma attach_design_pdf_attached (doc : Doc) (method : string) (w : World)
    (design_id doctype name : Value) (html pdf : string) :
  doc !! "design_id" = Some design_id →
  doc !! "doctype" = Some doctype →
  doc !! "name" = Some name →
  fw_render_template F "aquanova_suite/templates/print/wastewater_design.html"
    (Some doc) w = Ok html →
  fw_get_pdf F html w = Ok pdf →
  accepts_inserts F "File" →
  ∃ file,
    attach_design_pdf F doc method w =
    (Ok tt, mkWorld (db w ++ [file]) (db w ++ [file])
                    (events w ++ [EvInsert file; EvCommit])
                    (today w) (session_user w)) ∧
    file !! "doctype" = Some (VStr "File") ∧
    file !! "content" = Some (VBytes pdf) ∧
    file !! "attached_to_doctype" = Some doctype ∧
    file !! "attached_to_name" = Some name.
Proof.
  intros Hid Hdt Hname Hhtml Hpdf Hacc.
  unfold attach_design_pdf, try_except.
  unfold bind at 1, render_template. rewrite Hhtml.
  unfold bind at 1, get_pdf. rewrite Hpdf.
  unfold bind, getattr. rewrite Hid, Hdt, Hname. run.
  unfold doc_insert. rewrite Hacc by reflexivity. run.
  unfold db_commit. run.
  eexists. split.
  - rewrite <- !app_assoc. reflexivity.
  - repeat split; reflexivity.
Qed.

(** C7, as the code has it.  On the submission of a Wastewater System
    Design the three handlers run in the order of [doc_events]: a
    Production Order is created if the design's status is "Approved", an
    e-mail is sent to the Production Managers if at least one of them has
    an address, and the PDF is rendered and attached to the design. *)
Theorem C7_design_submitted (doc : Doc) (w : World)
    (status design_id design_date name : Value) (html pdf : string) :
  doc !! "doctype" = Some (VStr "Wastewater System Design") →
  doc !! "status" = Some status →
  doc !! "design_id" = Some design_id →
  doc !! "design_date" = Some design_date →
  doc !! "name" = Some name →
  accepts_inserts F "Production Order" →
  accepts_inserts F "File" →
  sendmail_works F →
  (∀ w1, fw_render_template F
           "aquanova_suite/templates/print/wastewater_design.html"
           (Some doc) w1 = Ok html) →
  (∀ w1, fw_get_pdf F html w1 = Ok pdf) →
  ∃ w' order_events mail_events file,
    run_doc_event F doc "on_submit" w = (Ok doc, w') ∧
    events w' =
      (events w ++ order_events ++ mail_events ++ [EvInsert file; EvCommit])%list ∧
    (if py_eq_str status "Approved"
     then ∃ po msg,
            order_events = [EvInsert po; EvCommit; EvMsgprint msg] ∧
            po !! "doctype" = Some (VStr "Production Order") ∧
            po !! "wastewater_design" = Some name
     else order_events = []) ∧
    match manager_emails (db w) with
    | [] => mail_events = []
    | rs => ∃ m, mail_events = [EvSendmail m] ∧ recipients m = rs
    end ∧
    file !! "doctype" = Some (VStr "File") ∧
    file !! "content" = Some (VBytes pdf) ∧
    file !! "attached_to_doctype" = Some (VStr "Wastewater System Design") ∧
    file !! "attached_to_name" = Some name.
Proof.
  intros Hdt Hst Hid Hdate Hname HaccP HaccF Hmail Hhtml Hpdf.
  (* the first handler *)
  assert (∃ w1 order_events,
            create_production_order F doc "on_submit" w = (Ok tt, w1) ∧
            events w1 = (events w ++ order_events)%list ∧
            manager_emails (db w1) = manager_emails (db w) ∧
            (if py_eq_str status "Approved"
             then ∃ po msg,
                    order_events = [EvInsert po; EvCommit; EvMsgprint msg] ∧
                    po !! "doctype" = Some (VStr "Production Order") ∧
                    po !! "wastewater_design" = Some name
             else order_events = []))
    as (w1 & order_events & Hrun1 & Hev1 & Hms1 & Horder).
  { destruct (py_eq_str status "Approved") eqn:Happ.
    - destruct (create_production_order_created doc "on_submit" w _ _ _
                  Hst Happ Hid Hname HaccP)
        as (po & msg & Hrun & Hpdt & _ & Hpwd & _).
      exists (created w po msg), [EvInsert po; EvCommit; EvMsgprint msg].
      repeat split; try done.
      + cbn [created db]. by apply manager_emails_other with "Production Order".
      + by exists po, msg.
    - exists w, []. rewrite app_nil_r. repeat split; try done.
      unfold create_production_order, try_except.
      unfold bind at 1, getattr at 1. by rewrite Hst, Happ. }
  (* the second handler *)
  destruct (send_design_approval_email_run F doc "on_submit" w1 _ _ Hid Hdate)
    as (subject & message & Hrun2).
  rewrite Hms1 in Hrun2.
  assert (∃ w2 mail_events,
            send_design_approval_email F doc "on_submit" w1 = (Ok tt, w2) ∧
            w2 = mkWorld (db w1) (committed w1) (events w1 ++ mail_events)
                         (today w1) (session_user w1) ∧
            match manager_emails (db w) with
            | [] => mail_events = []
            | rs => ∃ m, mail_events = [EvSendmail m] ∧ recipients m = rs
            end)
    as (w2 & mail_events & Hrun2' & Hw2 & Hmails).
  { destruct (manager_emails (db w)) as [| r rs].
    - exists w1, []. rewrite app_nil_r. by destruct w1.
    - cbn zeta in Hrun2. rewrite Hmail in Hrun2.
      eexists _, [EvSendmail _]. split; [exact Hrun2 |]. split; [done |].
      by eexists. }
  (* the third handler *)
  destruct (attach_design_pdf_attached doc "on_submit" w2 _ _ _ html pdf
              Hid Hdt Hname (Hhtml w2) (Hpdf w2) HaccF)
    as (file & Hrun3 & Hfdt & Hfc & Hfad & Hfan).
  eexists _, order_events, mail_events, file. split; [| split].
  - unfold run_doc_event. rewrite Hdt.
    change (handlers_of "Wastewater System Design" "on_submit")
      with ["aquanova_suite.customizations.create_production_order";
            "aquanova_suite.customizations.send_design_approval_email";
            "aquanova_suite.customizations.attach_design_pdf"].
    cbn [call_handlers].
    change (get_attr F "aquanova_suite.customizations.create_production_order")
      with (Some (same_object (create_production_order F))).
    change (get_attr F "aquanova_suite.customizations.send_design_approval_email")
      with (Some (same_object (send_design_approval_email F))).
    change (get_attr F "aquanova_suite.customizations.attach_design_pdf")
      with (Some (same_object (attach_design_pdf F))).
    unfold same_object, bind, ret. rewrite Hrun1, Hrun2', Hrun3. reflexivity.
  - cbn [events]. rewrite Hw2. cbn [events]. rewrite Hev1.
    by rewrite <- !app_assoc.
  - done.
Qed.

End DesignSubmitted.

(** ** The Maintenance Log hook and the report *)

Section Logging.
Context (F : Frappe).

(** C5, as the code has it.  The hook registered for a submitted
    Maintenance Log is not a no-op: it inserts and commits one more
    Maintenance Log and then shows the confirmation message.  The new
    document has the [maintenance_id] of the submitted one if that is
    truthy and "ML-" followed by a fresh hash otherwise; its
    [installation_record], [equipment], [activity] and [remarks] are what
    [doc.get] gives for the submitted document; the date is today's and
    the session's user has performed it. *)
Theorem C5_maintenance_log_inserted (doc : Doc) (w : World) :
  doc !! "doctype" = Some (VStr "Maintenance Log") →
  accepts_inserts F "Maintenance Log" →
  ∃ ml ml_name,
    run_doc_event F doc "on_submit" w =
      (Ok doc,
       created w ml ("Maintenance Log " +:+ py_str ml_name +:+ " created.")) ∧
    ml !! "name" = Some ml_name ∧
    ml !! "doctype" = Some (VStr "Maintenance Log") ∧
    ml !! "maintenance_id" =
      Some (if py_truthy (doc_get doc "maintenance_id" VNone)
            then doc_get doc "maintenance_id" VNone
            else VStr ("ML-" +:+ fw_generate_hash F w)) ∧
    ml !! "installation_record" =
      Some (doc_get doc "installation_record" (VStr "")) ∧
    ml !! "equipment" = Some (doc_get doc "equipment" VNone) ∧
    ml !! "activity" = Some (doc_get doc "activity" (VStr "Routine Check")) ∧
    ml !! "remarks" = Some (doc_get doc "remarks" (VStr "")) ∧
    ml !! "maintenance_date" = Some (VStr (date_str (today w))) ∧
    ml !! "performed_by" = Some (VStr (session_user w)).
Proof.
  intros Hdt Hacc. unfold run_doc_event. rewrite Hdt.
  change (handlers_of "Maintenance Log" "on_submit")
    with ["aquanova_suite.customizations.log_maintenance_activity"].
  cbn [call_handlers].
  change (get_attr F "aquanova_suite.customizations.log_maintenance_activity")
    with (Some (same_object (log_maintenance_activity F))).
  unfold same_object, log_maintenance_activity, try_except.
  unfold bind at 1. unfold bind at 1. unfold bind at 1.
  destruct (py_truthy (doc_get doc "maintenance_id" VNone)).
  - unfold ret at 1. unfold bind, nowdate, frappe_session_user. run.
    unfold doc_insert. rewrite Hacc by reflexivity. run.
    unfold db_commit, getattr. run. unfold msgprint, ret. run.
    eexists _, _. split.
    + unfold created. rewrite <- !app_assoc. reflexivity.
    + split; [apply lookup_insert_eq |]. repeat split; reflexivity.
  - unfold bind, generate_hash, ret, nowdate, frappe_session_user. run.
    unfold doc_insert. rewrite Hacc by reflexivity. run.
    unfold db_commit, getattr. run. unfold msgprint. run.
    eexists _, _. split.
    + unfold created. rewrite <- !app_assoc. reflexivity.
    + split; [apply lookup_insert_eq |]. repeat split; reflexivity.
Qed.

(** The handler shared by the ten other functions: log, then throw. *)
Lemma try_log_throw {A} (body : M A) (title msg : string) (w : World) :
  match body w with
  | (Ok a, w1) =>
      try_except body (fun e => log_error (exn_str e) title ;; throw msg) w
      = (Ok a, w1)
  | (Raise e, w1) =>
      try_except body (fun e => log_error (exn_str e) title ;; throw msg) w
      = (Raise (ValidationError msg),
         emit (emit w1 (EvLogError title (exn_str e))) (EvMsgprint msg))
  end.
Proof. unfold try_except. by destruct (body w) as [[a|e] w1]. Qed.

(** C3.  Where the code departs from the error pattern: the PDF renderer
    fails inside [generate_maintenance_report]; the exception is logged
    under the fixed title and nothing else happens: the function returns
    normally, no error message is raised, unlike in the ten other
    functions. *)
Theorem C3_report_failure_is_silent (w : World) (html : string) (e : Exn) :
  fw_render_template F "aquanova_suite/templates/print/maintenance_report.html"
    None w = Ok html →
  fw_get_pdf F html w = Raise e →
  generate_maintenance_report F w =
  (Ok tt,
   emit w (EvLogError "Maintenance Report Generation Failed" (exn_str e))).
Proof.
  intros Hhtml Hpdf. unfold generate_maintenance_report, try_except.
  unfold bind at 1, render_template. rewrite Hhtml.
  unfold bind at 1, get_pdf. rewrite Hpdf.
  reflexivity.
Qed.

(** [generate_maintenance_report] logs and stops there: whatever fails
    inside it, it returns normally. *)
Lemma generate_maintenance_report_never_raises (w : World) :
  is_ok (generate_maintenance_report F w).1 = true.
Proof.
  unfold generate_maintenance_report, try_except.
  match goal with |- context [let (_, _) := ?b in _] => destruct b as [[[]|e] w1] end;
    reflexivity.
Qed.

End Logging.

(** ** The statements at concrete inputs *)

Lemma pair_eta_fst {A B} (x : A * B) (a : A) : x.1 = a → x = (a, x.2).
Proof. destruct x as [a' b]. cbn. by intros ->. Qed.

Lemma C1_witness :
  ∃ inst w1 jcs doc' w',
    create_installation_record (test_frappe [] false) order_PO1 "on_submit"
      (stored [order_PO1]) = (Ok doc', w') ∧
    inst !! "doctype" = Some (VStr "Installation Record") ∧
    inst !! "production_order" = Some (VStr "PO-1") ∧
    inst !! "installation_date" = Some (VStr "2024-11-30") ∧
    date_of (VStr "2024-11-30") = Some (mkDate 2024 11 30) ∧
    inserted (events w1) = [inst] ∧
    create_maintenance_schedule (test_frappe [] false) inst w1 = (Ok tt, w') ∧
    db w' = (db w1 ++ jcs)%list ∧
    committed w' = db w' ∧
    inserted (events w') = (inserted (events w1) ++ jcs)%list ∧
    Forall2 (scheduled_job_card inst (mkDate 2024 11 30)) [3; 6; 9; 12] jcs.
Proof.
  apply (C1_quarterly_job_cards (test_frappe [] false) order_PO1 "on_submit"
           (stored [order_PO1]) (VStr "PO-1")).
  - reflexivity.
  - reflexivity.
  - reflexivity.
  - eexists. reflexivity.
  - reflexivity.
  - simpl. lia.
  - intros d w _. reflexivity.
  - intros d w _. reflexivity.
  - intros d f v w. reflexivity.
Defined.

Lemma C2_witness :
  ∃ wr end_date d1 w',
    create_warranty_record (test_frappe [] false) installation_IR1 "on_submit"
      (stored [installation_IR1]) = (Ok tt, w') ∧
    db w' = [installation_IR1; wr] ∧
    committed w' = db w' ∧
    inserted (events w') = [wr] ∧
    wr !! "doctype" = Some (VStr "Warranty Record") ∧
    wr !! "installation_record" = Some (VStr "IR-1") ∧
    wr !! "start_date" = Some (VDate (mkDate 2024 2 29)) ∧
    wr !! "end_date" = Some end_date ∧
    date_of end_date = Some d1 ∧
    relativedelta (mkDate 2024 2 29) 1 0 = Some d1 ∧
    d1 = mkDate 2025 2 28 ∧
    wr !! "status" = Some (VStr "Active").
Proof.
  apply (C2_warranty_record (test_frappe [] false) installation_IR1 "on_submit"
           (stored [installation_IR1]) (VStr "IR-1") (VDate (mkDate 2024 2 29))
           (mkDate 2024 2 29)).
  - reflexivity.
  - reflexivity.
  - reflexivity.
  - reflexivity.
  - reflexivity.
  - simpl. lia.
  - intros d w _. reflexivity.
Defined.

Lemma C8_witness :
  ∃ jc w',
    handle_emergency_job_card (test_frappe [] false) installation_IR1 ""
      (stored [installation_IR1]) = (Ok tt, w') ∧
    db w' = [installation_IR1; jc] ∧
    committed w' = db w' ∧
    inserted (events w') = [jc] ∧
    jc !! "doctype" = Some (VStr "Job Card") ∧
    jc !! "installation_record" = Some (VStr "IR-1") ∧
    jc !! "scheduled_date" = Some (VStr "2024-11-30") ∧
    jc !! "maintenance_type" = Some (VStr "Emergency Maintenance") ∧
    jc !! "emergency" = Some (VBool true).
Proof.
  apply (C8_emergency_job_card (test_frappe [] false) installation_IR1 ""
           (stored [installation_IR1])).
  - eexists. reflexivity.
  - intros d w _. reflexivity.
Defined.

Lemma C3_witness :
  generate_maintenance_report (test_frappe [] true) (stored []) =
  (Ok tt,
   emit (stored [])
     (EvLogError "Maintenance Report Generation Failed" "wkhtmltopdf failed")).
Proof.
  apply (C3_report_failure_is_silent (test_frappe [] true) (stored [])
           "<html>aquanova_suite/templates/print/maintenance_report.html</html>"
           (FrameworkError "wkhtmltopdf failed")).
  - reflexivity.
  - reflexivity.
Defined.


(** Against C5 as stated: the hook of a submitted Maintenance Log adds a
    second Maintenance Log to the store and commits it. *)
Lemma C5_counterexample :
  let w := stored [maintenance_log_ML1] in
  let r := log_maintenance_activity (test_frappe [] false) maintenance_log_ML1
             "on_submit" w in
  r.1 = Ok tt ∧
  db r.2 ≠ db w ∧
  committed r.2 ≠ committed w ∧
  (fun d => d !! "doctype") <$> committed r.2 =
    [Some (VStr "Maintenance Log"); Some (VStr "Maintenance Log")].
Proof.
  cbv zeta. split; [vm_compute; reflexivity |]. split; [| split].
  - intros H. apply (f_equal length) in H. vm_compute in H. discriminate H.
  - intros H. apply (f_equal length) in H. vm_compute in H. discriminate H.
  - vm_compute. reflexivity.
Qed.

Lemma C5_witness :
  ∃ ml ml_name,
    run_doc_event (test_frappe [] false) maintenance_log_ML1 "on_submit"
      (stored [maintenance_log_ML1]) =
      (Ok maintenance_log_ML1,
       created (stored [maintenance_log_ML1]) ml
         ("Maintenance Log " +:+ py_str ml_name +:+ " created.")) ∧
    ml !! "name" = Some ml_name ∧
    ml !! "doctype" = Some (VStr "Maintenance Log") ∧
    ml !! "maintenance_id" = Some (VStr "ML-1") ∧
    ml !! "installation_record" = Some (VStr "IR-1") ∧
    ml !! "equipment" = Some VNone ∧
    ml !! "activity" = Some (VStr "Filter change") ∧
    ml !! "remarks" = Some VNone ∧
    ml !! "maintenance_date" = Some (VStr "2024-11-30") ∧
    ml !! "performed_by" = Some (VStr "installer@example.com").
Proof.
  apply (C5_maintenance_log_inserted (test_frappe [] false) maintenance_log_ML1
           (stored [maintenance_log_ML1])).
  - reflexivity.
  - intros d w _. reflexivity.
Defined.

(** Against C6 as stated: [create_warranty_record] run twice on the same
    Installation Record leaves two Warranty Records for it. *)
Lemma C6_counterexample :
  let F := test_frappe [] false in
  let w1 := (create_warranty_record F installation_IR1 "on_submit"
               (stored [installation_IR1])).2 in
  let w2 := (create_warranty_record F installation_IR1 "on_submit" w1).2 in
  (fun d => (d !! "doctype", d !! "installation_record")) <$> inserted (events w2)
  = [(Some (VStr "Warranty Record"), Some (VStr "IR-1"));
     (Some (VStr "Warranty Record"), Some (VStr "IR-1"))].
Proof. vm_compute. reflexivity. Qed.

Lemma C6_witness :
  let F := test_frappe [] false in
  let doc := design_WD1 "Draft" in
  let w := stored [doc] in
  (py_eq_str (VStr "Draft") "Approved" = false →
     create_production_order F doc "on_submit" w = (Ok tt, w)) ∧
  (py_eq_str (VStr "Draft") "Installed" = false →
     create_warranty_record F doc "on_submit" w = (Ok tt, w)) ∧
  (py_eq_str (VStr "Draft") "Completed" = false ∨
   py_truthy (doc_get doc "installation_record" VNone) = true →
     create_installation_record F doc "on_submit" w = (Ok doc, w)) ∧
  (names_nonempty F →
   ∀ doc' w', create_installation_record F doc "on_submit" w = (Ok doc', w') →
   ∀ method2 w2, create_installation_record F doc' method2 w2 = (Ok doc', w2)).
Proof.
  intros F doc w.
  apply (C6_creation_guards F doc "on_submit" w (VStr "Draft")).
  reflexivity.
Defined.

(** Against C7 as stated: a design whose status is not "Approved" is
    submitted where no Production Manager has an address; the only
    document created is the attached file, and no mail is sent. *)
Lemma C7_counterexample :
  let doc := design_WD1 "Draft" in
  let r := run_doc_event (test_frappe [] false) doc "on_submit" (stored [doc]) in
  is_ok r.1 = true ∧
  (fun d => d !! "doctype") <$> inserted (events r.2) = [Some (VStr "File")] ∧
  sent (events r.2) = [].
Proof. cbv zeta. repeat split; vm_compute; reflexivity. Qed.

Lemma C7_witness :
  let F := test_frappe [] false in
  let doc := design_WD1 "Approved" in
  let w := stored [doc; has_role "alice" "Production Manager";
                   user "alice" (VStr "alice@example.com")] in
  ∃ w' order_events mail_events file,
    run_doc_event F doc "on_submit" w = (Ok doc, w') ∧
    events w' =
      (events w ++ order_events ++ mail_events ++ [EvInsert file; EvCommit])%list ∧
    (if py_eq_str (VStr "Approved") "Approved"
     then ∃ po msg,
            order_events = [EvInsert po; EvCommit; EvMsgprint msg] ∧
            po !! "doctype" = Some (VStr "Production Order") ∧
            po !! "wastewater_design" = Some (VStr "WD-1")
     else order_events = []) ∧
    match manager_emails (db w) with
    | [] => mail_events = []
    | rs => ∃ m, mail_events = [EvSendmail m] ∧ recipients m = rs
    end ∧
    file !! "doctype" = Some (VStr "File") ∧
    file !! "content" =
      Some (VBytes ("%PDF <html>aquanova_suite/templates/print/wastewater_design.html</html>")) ∧
    file !! "attached_to_doctype" = Some (VStr "Wastewater System Design") ∧
    file !! "attached_to_name" = Some (VStr "WD-1").
Proof.
  intros F doc w.
  apply (C7_design_submitted F doc w (VStr "Approved") (VStr "D-001")
           (VDate (mkDate 2024 11 1)) (VStr "WD-1")
           "<html>aquanova_suite/templates/print/wastewater_design.html</html>").
  - reflexivity.
  - reflexivity.
  - reflexivity.
  - reflexivity.
  - reflexivity.
  - intros d w0 _. reflexivity.
  - intros d w0 _. reflexivity.
  - intros m w0. reflexivity.
  - intros w1. reflexivity.
  - intros w1. reflexivity.
Defined.

Lemma C9_witness :
  let F := test_frappe [] false in
  let w := stored [order_PO1] in
  let doc' := <["installation_record" := VStr "Installation Record-1"]> order_PO1 in
  let w' := (create_installation_record F order_PO1 "on_submit" w).2 in
  (inserted (events w') ≠ inserted (events w) →
     ∃ inst, inst !! "doctype" = Some (VStr "Installation Record") ∧
             EvInsert inst ∈ events w' ∧
             is_Some (inst !! "name") ∧
             doc' !! "installation_record" = inst !! "name") ∧
  (∀ w2 method2,
     create_installation_record F doc' method2 w2 = (Ok doc', w2)) ∧
  (∀ doc2 w2 method2,
     doc2 !! "status" = doc' !! "status" →
     doc2 !! "installation_record" = doc' !! "installation_record" →
     create_installation_record F doc2 method2 w2 = (Ok doc2, w2)).
Proof.
  intros F w doc' w'.
  apply (C9_second_run_creates_nothing F order_PO1 doc' "on_submit" w w').
  - intros d w0. cbn. unfold name_for.
    by destruct (py_str (default VNone (d !! "doctype"))).
  - refine (pair_eta_fst
              (create_installation_record F order_PO1 "on_submit" w) _ _).
    vm_compute. reflexivity.
Defined.

Lemma C10_witness :
  let F := test_frappe [] false in
  let doc := design_WD1 "Approved" in
  let w := stored [doc; has_role "alice" "Production Manager";
                   user "alice" (VStr "")] in
  send_design_approval_email F doc "on_submit" w = (Ok tt, w).
Proof.
  intros F doc w.
  apply (C10_no_recipient_no_email F doc "on_submit" w).
  - eexists. reflexivity.
  - eexists. reflexivity.
  - intros row Hrow Hpm.
    apply elem_of_cons in Hrow as [-> | Hrow]; [discriminate Hpm |].
    apply elem_of_cons in Hrow as [-> | Hrow]; [reflexivity |].
    apply elem_of_cons in Hrow as [-> | Hrow]; [discriminate Hpm |].
    by apply elem_of_nil in Hrow.
Defined.

(** * Further properties of the module *)

(** ** What the functions emit *)

Lemma emits_read {A} (P : Event → bool) (c : M A) :
  (∀ w, (c w).2 = w) → emits P c.
Proof.
  intros Hread w r w' Hrun. specialize (Hread w). rewrite Hrun in Hread.
  cbn in Hread. subst w'. exists []. by rewrite app_nil_r.
Qed.

Lemma emits_bind {A B} (P : Event → bool) (c : M A) (k : A → M B) :
  emits P c → (∀ a, emits P (k a)) → emits P (bind c k).
Proof.
  intros Hc Hk w r w' Hrun. unfold bind in Hrun.
  destruct (c w) as [[a|e] w1] eqn:Hcw.
  - destruct (Hc _ _ _ Hcw) as (evs1 & He1 & Hp1).
    destruct (Hk a _ _ _ Hrun) as (evs2 & He2 & Hp2).
    exists (evs1 ++ evs2)%list. split.
    + by rewrite He2, He1, app_assoc.
    + by apply Forall_app.
  - injection Hrun as <- <-. by apply (Hc _ _ _ Hcw).
Qed.

Lemma emits_try_except {A} (P : Event → bool) (body : M A)
    (handler : Exn → M A) :
  emits P body → (∀ e, emits P (handler e)) → emits P (try_except body handler).
Proof.
  intros Hb Hh w r w' Hrun. unfold try_except in Hrun.
  destruct (body w) as [[a|e] w1] eqn:Hbw.
  - injection Hrun as <- <-. by apply (Hb _ _ _ Hbw).
  - destruct (Hb _ _ _ Hbw) as (evs1 & He1 & Hp1).
    destruct (Hh e _ _ _ Hrun) as (evs2 & He2 & Hp2).
    exists (evs1 ++ evs2)%list. split.
    + by rewrite He2, He1, app_assoc.
    + by apply Forall_app.
Qed.

Lemma emits_for_each {A} (P : Event → bool) (xs : list A) (body : A → M unit) :
  (∀ x, emits P (body x)) → emits P (for_each xs body).
Proof.
  intros Hb. induction xs as [| x xs IH]; cbn [for_each].
  - by apply emits_read.
  - apply emits_bind; [apply Hb | intros _; exact IH].
Qed.

Lemma emits_for_fold {A B} (P : Event → bool) (xs : list A) (acc : B)
    (body : B → A → M B) :
  (∀ acc x, emits P (body acc x)) → emits P (for_fold xs acc body).
Proof.
  intros Hb. revert acc. induction xs as [| x xs IH]; intros acc; cbn [for_fold].
  - by apply emits_read.
  - apply emits_bind; [apply Hb | intros acc'; apply IH].
Qed.

(** A computation that adds at most the one event [e]. *)
Lemma emits_one {A} (P : Event → bool) (c : M A) (e : Event) :
  P e = true →
  (∀ w, events (c w).2 = events w ∨
        events (c w).2 = (events w ++ [e])%list) →
  emits P c.
Proof.
  intros HP Hc w r w' Hrun. destruct (Hc w) as [Hw | Hw];
    rewrite Hrun in Hw; cbn in Hw.
  - exists []. by rewrite app_nil_r.
  - exists [e]. split; [done |]. by constructor.
Qed.

Section Emits.
Context (F : Frappe) (P : Event → bool).

Lemma emits_ret {A} (a : A) : emits P (ret a).
Proof. by apply emits_read. Qed.

Lemma emits_getattr (d : Doc) (attr : string) : emits P (getattr d attr).
Proof. apply emits_read. intros w. unfold getattr. by destruct (d !! attr). Qed.

Lemma emits_nowdate : emits P nowdate.
Proof. by apply emits_read. Qed.

Lemma emits_session_user : emits P frappe_session_user.
Proof. by apply emits_read. Qed.

Lemma emits_generate_hash : emits P (generate_hash F).
Proof. by apply emits_read. Qed.

Lemma emits_getdate (v : Value) : emits P (getdate F v).
Proof. apply emits_read. intros w. unfold getdate. repeat case_match; reflexivity. Qed.

Lemma emits_add_to_date (v : Value) (ys ms : Z) : emits P (add_to_date F v ys ms).
Proof.
  apply emits_read. intros w. unfold add_to_date. repeat case_match; reflexivity.
Qed.

Lemma emits_render_template (path : string) (doc : option Doc) :
  emits P (render_template F path doc).
Proof. by apply emits_read. Qed.

Lemma emits_get_pdf (html : string) : emits P (get_pdf F html).
Proof. by apply emits_read. Qed.

Lemma emits_get_all (doctype : string) (filters : list (string * Value))
    (fields : list string) : emits P (get_all doctype filters fields).
Proof. by apply emits_read. Qed.

Lemma emits_db_get_value (doctype : string) (name : Value) (field : string) :
  emits P (db_get_value doctype name field).
Proof. by apply emits_read. Qed.

Lemma emits_msgprint (msg : string) :
  P (EvMsgprint msg) = true → emits P (msgprint msg).
Proof. intros HP. apply (emits_one P _ _ HP). intros w. by right. Qed.

Lemma emits_log_error (msg title : string) :
  P (EvLogError title msg) = true → emits P (log_error msg title).
Proof. intros HP. apply (emits_one P _ _ HP). intros w. by right. Qed.

Lemma emits_throw {A} (msg : string) :
  P (EvMsgprint msg) = true → emits P (@throw A msg).
Proof. intros HP. apply (emits_one P _ _ HP). intros w. by right. Qed.

Lemma emits_db_commit : P EvCommit = true → emits P db_commit.
Proof. intros HP. apply (emits_one P _ _ HP). intros w. by right. Qed.

Lemma emits_sendmail (m : Mail) :
  P (EvSendmail m) = true → emits P (sendmail F m).
Proof.
  intros HP. apply (emits_one P _ _ HP). intros w. unfold sendmail.
  destruct (fw_sendmail_error F m w); [by left | by right].
Qed.

Lemma emits_doc_insert (d : Doc) :
  (∀ n, P (EvInsert (<["name" := VStr n]> d)) = true) →
  emits P (doc_insert F d).
Proof.
  intros HP w r w' Hrun. unfold doc_insert in Hrun.
  destruct (fw_insert_error F d w); injection Hrun as <- <-.
  - exists []. by rewrite app_nil_r.
  - eexists [_]. split; [done |]. constructor; [apply HP | constructor].
Qed.

Lemma emits_db_set (doc : Doc) (field : string) (v : Value) :
  (∀ doctype name, P (EvDbSet doctype name field v) = true) →
  emits P (db_set F doc field v).
Proof.
  intros HP. unfold db_set.
  apply emits_bind; [apply emits_getattr | intros doctype].
  apply emits_bind; [apply emits_getattr | intros name].
  apply (emits_one P _ _ (HP doctype name)). intros w.
  destruct (fw_db_set_error F doc field v w); [by left | by right].
Qed.

End Emits.

Ltac emits_step :=
  first
    [ apply emits_ret | apply emits_getattr | apply emits_nowdate
    | apply emits_session_user | apply emits_generate_hash
    | apply emits_getdate | apply emits_add_to_date
    | apply emits_render_template | apply emits_get_pdf
    | apply emits_get_all | apply emits_db_get_value
    | apply emits_msgprint; reflexivity
    | apply emits_log_error; reflexivity
    | apply emits_throw; reflexivity
    | apply emits_db_commit; reflexivity
    | apply emits_sendmail; reflexivity
    | apply emits_doc_insert; intros ?; reflexivity
    | apply emits_db_set; intros ? ?; reflexivity
    | assumption
    | apply emits_try_except; [| intros ?]
    | apply emits_for_each; intros ?
    | apply emits_for_fold; intros ? ?
    | apply emits_bind; [| intros ?]
    | match goal with
      | |- emits _ (if ?b then _ else _) => destruct b
      | |- emits _ (match ?x with _ => _ end) => destruct x
      | |- emits _ (let _ := _ in _) => cbv zeta
      end ].

Ltac solve_emits := repeat emits_step.

Section ModuleEvents.
Context (F : Frappe).

Lemma emits_create_job_card (inst : Doc) (sd : Value) (mt : string) (em : bool) :
  emits module_event (create_job_card F inst sd mt em).
Proof. unfold create_job_card. solve_emits. Qed.

Lemma emits_create_maintenance_schedule (inst : Doc) :
  emits module_event (create_maintenance_schedule F inst).
Proof.
  pose proof emits_create_job_card.
  unfold create_maintenance_schedule, add_months. solve_emits.
Qed.

Lemma emits_create_production_order (doc : Doc) (method : string) :
  emits module_event (create_production_order F doc method).
Proof. unfold create_production_order. solve_emits. Qed.

Lemma emits_attach_design_pdf (doc : Doc) (method : string) :
  emits module_event (attach_design_pdf F doc method).
Proof. unfold attach_design_pdf. solve_emits. Qed.

Lemma emits_create_installation_record (doc : Doc) (method : string) :
  emits module_event (create_installation_record F doc method).
Proof.
  pose proof emits_create_maintenance_schedule.
  unfold create_installation_record. solve_emits.
Qed.

Lemma emits_create_warranty_record (doc : Doc) (method : string) :
  emits module_event (create_warranty_record F doc method).
Proof. unfold create_warranty_record, add_years. solve_emits. Qed.

Lemma emits_handle_emergency_job_card (inst : Doc) (details : string) :
  emits module_event (handle_emergency_job_card F inst details).
Proof.
  pose proof emits_create_job_card.
  unfold handle_emergency_job_card. solve_emits.
Qed.

Lemma emits_log_maintenance_activity (doc : Doc) (method : string) :
  emits module_event (log_maintenance_activity F doc method).
Proof. unfold log_maintenance_activity. solve_emits. Qed.

(** The three functions that make no write at all. *)
Lemma no_write_send_design_approval_email (doc : Doc) (method : string) :
  emits no_write (send_design_approval_email F doc method).
Proof. unfold send_design_approval_email. solve_emits. Qed.

Lemma no_write_update_inventory (doc : Doc) (method : string) :
  emits no_write (update_inventory_on_component_production doc method).
Proof. unfold update_inventory_on_component_production. solve_emits. Qed.

Lemma no_write_generate_maintenance_report :
  emits no_write (generate_maintenance_report F).
Proof. unfold generate_maintenance_report. solve_emits. Qed.

Lemma emits_weaken {A} (P Q : Event → bool) (c : M A) :
  (∀ e, P e = true → Q e = true) → emits P c → emits Q c.
Proof.
  intros HPQ Hc w r w' Hrun. destruct (Hc _ _ _ Hrun) as (evs & Hev & HP).
  exists evs. split; [done |]. eapply Forall_impl; [exact HP | exact HPQ].
Qed.

Lemma no_write_module_event (e : Event) :
  no_write e = true → module_event e = true.
Proof. by destruct e. Qed.

Lemma emits_get_attr (path : string) (handler : Handler) (doc : Doc)
    (method : string) :
  get_attr F path = Some handler → emits module_event (handler doc method).
Proof.
  pose proof emits_create_production_order.
  pose proof (fun d m => emits_weaken _ _ _ no_write_module_event
                           (no_write_send_design_approval_email d m)).
  pose proof emits_attach_design_pdf.
  pose proof emits_create_installation_record.
  pose proof emits_create_warranty_record.
  pose proof emits_log_maintenance_activity.
  pose proof (fun d m => emits_weaken _ _ _ no_write_module_event
                           (no_write_update_inventory d m)).
  unfold get_attr, same_object.
  repeat case_match; intros [= <-]; solve_emits.
Qed.

Lemma emits_call_handlers (paths : list string) (doc : Doc) (method : string) :
  emits module_event (call_handlers F paths doc method).
Proof.
  revert doc. induction paths as [| path paths IH]; intros doc; cbn [call_handlers].
  - apply emits_ret.
  - destruct (get_attr F path) as [handler|] eqn:Hget;
      [| by apply emits_read].
    apply emits_bind; [by eapply emits_get_attr | intros doc'; apply IH].
Qed.

Lemma emits_run_doc_event (doc : Doc) (event : string) :
  emits module_event (run_doc_event F doc event).
Proof.
  unfold run_doc_event.
  repeat case_match; first [apply emits_ret | apply emits_call_handlers].
Qed.

End ModuleEvents.

(** ** Consequences for the store *)

Lemma new_events_unique (evs evs1 evs2 : list Event) :
  (evs ++ evs1)%list = (evs ++ evs2)%list → evs1 = evs2.
Proof. apply app_inv_head. Qed.

Lemma replay_no_write (evs : list Event) (s : list Doc * list Doc) :
  Forall (fun e => no_write e = true) evs → replay evs s = s.
Proof.
  intros Hall. revert s. induction Hall as [| e evs He _ IH]; intros s; [done |].
  change (replay (e :: evs) s) with (replay evs (replay_event s e)).
  rewrite IH. by destruct e.
Qed.

Lemma replay_keeps (evs : list Event) (s : list Doc * list Doc) (i : nat)
    (row : Doc) :
  Forall (fun e => module_event e = true) evs →
  s.1 !! i = Some row →
  ∃ row', (replay evs s).1 !! i = Some row' ∧
          ∀ k, k ≠ "installation_record" → row' !! k = row !! k.
Proof.
  intros Hall. revert s row.
  induction Hall as [| e evs He _ IH]; intros s row Hrow; [by exists row |].
  change (replay (e :: evs) s) with (replay evs (replay_event s e)).
  destruct e as [d | doctype name field v | | | |]; try (by apply IH).
  - apply IH. cbn. by apply lookup_app_l_Some.
  - cbn in He. apply String.eqb_eq in He as ->.
    set (upd := fun r : Doc =>
                  if same_document doctype name r
                  then <["installation_record" := v]> r else r).
    destruct (IH (upd <$> s.1, s.2) (upd row)) as (row' & Hrow' & Hsame).
    { cbn. by rewrite list_lookup_fmap, Hrow. }
    exists row'. split; [exact Hrow' |]. intros k Hk. rewrite (Hsame k Hk).
    unfold upd. destruct (same_document doctype name row); [| done].
    by rewrite lookup_insert_ne.
Qed.

Lemma leaves_store_intro {A} (c : M A) :
  tracks c → emits no_write c → leaves_store c.
Proof.
  intros Ht He w r w' Hrun.
  destruct (Ht _ _ _ Hrun) as (evs1 & Hev1 & Hs).
  destruct (He _ _ _ Hrun) as (evs2 & Hev2 & Hq).
  rewrite Hev1 in Hev2. apply new_events_unique in Hev2 as ->.
  rewrite replay_no_write in Hs by done. by injection Hs as -> ->.
Qed.

Lemma keeps_documents_intro {A} (c : M A) :
  tracks c → emits module_event c → keeps_documents c.
Proof.
  intros Ht He w r w' i row Hrun Hrow.
  destruct (Ht _ _ _ Hrun) as (evs1 & Hev1 & Hs).
  destruct (He _ _ _ Hrun) as (evs2 & Hev2 & Hm).
  rewrite Hev1 in Hev2. apply new_events_unique in Hev2 as ->.
  destruct (replay_keeps evs2 (db w, committed w) i row Hm Hrow)
    as (row' & Hrow' & Hsame).
  exists row'. split; [| exact Hsame]. by rewrite <- Hs in Hrow'.
Qed.

Section Store.
Context (F : Frappe).

(** X5.  No function of the module deletes, moves or overwrites a document:
    whatever a dispatch of [doc_events], an emergency Job Card or the
    report does, every document of the store is still at its place
    afterwards, unchanged in every field but [installation_record]. *)
Theorem module_keeps_documents (doc : Doc) (event details : string) :
  keeps_documents (run_doc_event F doc event) ∧
  keeps_documents (handle_emergency_job_card F doc details) ∧
  keeps_documents (generate_maintenance_report F).
Proof.
  split; [| split]; apply keeps_documents_intro.
  - apply tracks_run_doc_event.
  - apply emits_run_doc_event.
  - apply tracks_handle_emergency_job_card.
  - apply emits_handle_emergency_job_card.
  - apply tracks_generate_maintenance_report.
  - eapply emits_weaken; [apply no_write_module_event |].
    apply no_write_generate_maintenance_report.
Qed.

(** X4.  The two notifying hooks never write to the store, whether they
    return or raise: [send_design_approval_email] and
    [update_inventory_on_component_production] leave the transaction's
    store and the committed store as they are. *)
Theorem notifications_leave_store (doc : Doc) (method : string) :
  leaves_store (send_design_approval_email F doc method) ∧
  leaves_store (update_inventory_on_component_production doc method).
Proof.
  split; apply leaves_store_intro.
  - apply tracks_send_design_approval_email.
  - apply no_write_send_design_approval_email.
  - apply tracks_update_inventory.
  - apply no_write_update_inventory.
Qed.

(** X2.  [generate_maintenance_report] in full: it never raises and it never
    writes to the store.  Either it sends one mail, the report to
    maintenance@example.com, and the attachment "Maintenance_Report.pdf" is
    what [get_pdf] made of the rendered report template; or it sends
    nothing, and logs the failure under its title. *)
Theorem generate_maintenance_report_outcomes (w w' : World) (r : Res unit) :
  generate_maintenance_report F w = (r, w') →
  r = Ok tt ∧
  db w' = db w ∧ committed w' = committed w ∧
  ((∃ html pdf,
      render_template F "aquanova_suite/templates/print/maintenance_report.html"
        None w = (Ok html, w) ∧
      get_pdf F html w = (Ok pdf, w) ∧
      events w' = (events w ++ [EvSendmail (report_mail pdf)])%list) ∨
   (∃ cause,
      events w' =
        (events w ++
         [EvLogError "Maintenance Report Generation Failed" cause])%list)).
Proof.
  intros Hrun.
  destruct (leaves_store_intro _ (tracks_generate_maintenance_report F)
              (no_write_generate_maintenance_report F) _ _ _ Hrun) as [Hdb Hco].
  unfold generate_maintenance_report, try_except, bind, render_template,
    get_pdf, sendmail, log_error in Hrun.
  unfold render_template, get_pdf.
  destruct (fw_render_template F _ None w) as [html | e1];
    [destruct (fw_get_pdf F html w) as [pdf | e2] eqn:Hpdf;
     [destruct (fw_sendmail_error F _ w) as [e3 |] |] |];
    injection Hrun as <- <-; repeat split; try done.
  - right. by eexists.
  - left. exists html, pdf. by rewrite Hpdf.
  - right. by eexists.
  - right. by eexists.
Qed.

(** X3.  The placeholder for Manufactured Components: with a [component_id] it
    shows the message and returns; without one, the [AttributeError] is
    logged and the generic error is raised. *)
Theorem update_inventory_outcomes (doc : Doc) (method : string) (w : World) :
  (∀ component_id, doc !! "component_id" = Some component_id →
     update_inventory_on_component_production doc method w =
     (Ok tt,
      emit w (EvMsgprint ("Inventory updated for Manufactured Component: " +:+
                          py_str component_id)))) ∧
  (doc !! "component_id" = None →
     ∃ cause,
       update_inventory_on_component_production doc method w =
       (Raise (ValidationError
                 "Failed to update inventory. Please check the system logs."),
        emit (emit w (EvLogError "Inventory Update Failed" cause))
             (EvMsgprint
                "Failed to update inventory. Please check the system logs."))).
Proof.
  split.
  - intros component_id Hc.
    unfold update_inventory_on_component_production, try_except, bind, getattr.
    by rewrite Hc.
  - intros Hc. eexists.
    unfold update_inventory_on_component_production, try_except, bind, getattr.
    rewrite Hc. reflexivity.
Qed.

End Store.

(** ** The chain of hooks and the event table *)

Lemma has_status_lookup (d : Doc) (status : string) :
  has_status d status = true → d !! "status" = Some (VStr status).
Proof.
  unfold has_status. destruct (d !! "status") as [[]|]; cbn; try discriminate.
  intros Heq. by apply String.eqb_eq in Heq as ->.
Qed.

Ltac by_doctype doctype tac :=
  destruct (String.eqb_spec "Wastewater System Design" doctype);
    [tac |
  destruct (String.eqb_spec "Production Order" doctype);
    [tac |
  destruct (String.eqb_spec "Installation Record" doctype);
    [tac |
  destruct (String.eqb_spec "Maintenance Log" doctype);
    [tac |
  destruct (String.eqb_spec "Manufactured Component" doctype);
    [tac | reflexivity]]]]].

Lemma handlers_of_other_event (doctype event : string) :
  event ≠ "on_submit" → handlers_of doctype event = [].
Proof.
  intros Hev. unfold handlers_of, assoc, doc_events. cbn [List.find fst].
  assert (String.eqb "on_submit" event = false) as Hne
    by (apply String.eqb_neq; congruence).
  by_doctype doctype ltac:(cbn -[String.eqb]; rewrite Hne; reflexivity).
Qed.

Lemma handlers_of_unregistered (doctype event : string) :
  doctype ∉ registered_doctypes → handlers_of doctype event = [].
Proof.
  intros Hno. unfold handlers_of, assoc, doc_events. cbn [List.find fst].
  by_doctype doctype
    ltac:(exfalso; apply Hno; subst doctype; unfold registered_doctypes;
          repeat first [apply list_elem_of_here | apply list_elem_of_further]).
Qed.

Section Chain.
Context (F : Frappe).

(** X7.  The event table registers handlers for [on_submit] only, and for five
    doctypes only: any other event (saving, cancelling, ...) and the
    submission of a document of any other doctype run no code of the
    module and leave the world as it is. *)
Theorem only_on_submit_registered (doc : Doc) (event : string) (w : World) :
  (event ≠ "on_submit" ∨
   ∀ doctype, doc !! "doctype" = Some (VStr doctype) →
              doctype ∉ registered_doctypes) →
  run_doc_event F doc event w = (Ok doc, w).
Proof.
  intros Hcase. unfold run_doc_event.
  destruct (doc !! "doctype") as [[| | |doctype| |]|]; try reflexivity.
  destruct Hcase as [Hev | Hdt].
  - by rewrite handlers_of_other_event.
  - by rewrite handlers_of_unregistered by (by apply Hdt).
Qed.

(** X6.  The hooks do not set each other off.  Every document that a dispatch
    inserts is of one of six doctypes, in the status its creating function
    gives it (and a File is private); in that status the next hook of the
    chain does nothing: a new Production Order ("Draft") gets no
    Installation Record, a new Installation Record ("Scheduled") gets no
    Warranty Record. *)
Theorem created_documents_do_not_cascade (doc : Doc) (event : string)
    (w w' : World) (r : Res Doc) :
  run_doc_event F doc event w = (r, w') →
  ∃ evs,
    events w' = (events w ++ evs)%list ∧
    ∀ d, d ∈ inserted evs →
      initial_document d = true ∧
      (∀ method w2,
         d !! "doctype" = Some (VStr "Production Order") →
         create_installation_record F d method w2 = (Ok d, w2)) ∧
      (∀ method w2,
         d !! "doctype" = Some (VStr "Installation Record") →
         create_warranty_record F d method w2 = (Ok tt, w2)).
Proof.
  intros Hrun. destruct (emits_run_doc_event F _ _ _ _ _ Hrun) as (evs & Hev & Hall).
  exists evs. split; [exact Hev |]. intros d Hd.
  assert (initial_document d = true) as Hinit.
  { unfold inserted in Hd. apply list_elem_of_omap in Hd as (e & He & Hed).
    rewrite Forall_forall in Hall. specialize (Hall e He).
    destruct e; try discriminate Hed. by injection Hed as ->. }
  split; [exact Hinit |]. split.
  - intros method w2 Hdt. unfold initial_document in Hinit. rewrite Hdt in Hinit.
    cbn in Hinit. apply has_status_lookup in Hinit.
    by apply create_installation_record_skips with (VStr "Draft").
  - intros method w2 Hdt. unfold initial_document in Hinit. rewrite Hdt in Hinit.
    cbn in Hinit. apply has_status_lookup in Hinit.
    unfold create_warranty_record, try_except. unfold bind at 1, getattr at 1.
    by rewrite Hinit.
Qed.

(** X8.  A document without a [status] attribute: the three hooks that test the
    status fail on the test itself; the [AttributeError] is logged, the
    generic error is raised, and nothing is written. *)
Theorem status_attribute_required (doc : Doc) (method : string) (w : World) :
  doc !! "status" = None →
  (∃ cause,
     create_production_order F doc method w =
     (Raise (ValidationError
               "Failed to create Production Order. Please check the system logs."),
      emit (emit w (EvLogError "Production Order Creation Failed" cause))
           (EvMsgprint
              "Failed to create Production Order. Please check the system logs."))) ∧
  (∃ cause,
     create_installation_record F doc method w =
     (Raise (ValidationError
               "Failed to create Installation Record. Please check the system logs."),
      emit (emit w (EvLogError "Installation Record Creation Failed" cause))
           (EvMsgprint
              "Failed to create Installation Record. Please check the system logs."))) ∧
  (∃ cause,
     create_warranty_record F doc method w =
     (Raise (ValidationError
               "Failed to create Warranty Record. Please check the system logs."),
      emit (emit w (EvLogError "Warranty Record Creation Failed" cause))
           (EvMsgprint
              "Failed to create Warranty Record. Please check the system logs."))).
Proof.
  intros Hst. split; [| split]; eexists.
  - unfold create_production_order, try_except. unfold bind at 1, getattr at 1.
    rewrite Hst. reflexivity.
  - unfold create_installation_record, try_except. unfold bind at 1, getattr at 1.
    rewrite Hst. reflexivity.
  - unfold create_warranty_record, try_except. unfold bind at 1, getattr at 1.
    rewrite Hst. reflexivity.
Qed.

End Chain.

(** ** Failure of a single creation *)

(** Case analysis of a run that is known to have raised: the outcome of
    every lookup and framework answer on the way is split. *)
Ltac split_run H :=
  repeat first
    [ progress cbn beta iota zeta in H
    | rewrite lookup_insert_eq in H
    | match type of H with
      | context [match ?x with _ => _ end] =>
          lazymatch x with
          | context [match _ with _ => _ end] => fail
          | _ => destruct x eqn:?
          end
      end ].

Ltac raised_before_write H :=
  split_run H; try discriminate H; injection H as <- <-; by cbn.

Section Atomic.
Context (F : Frappe).

(** X9.  The functions that make one insert are all or nothing: when
    [create_production_order], [attach_design_pdf],
    [create_warranty_record], [create_job_card],
    [handle_emergency_job_card] or [log_maintenance_activity] raises, it
    has written nothing: the stores are those of before the call. *)
Theorem single_insert_all_or_nothing (doc : Doc) (method : string)
    (sd : Value) (mt : string) (em : bool) (w w' : World) (e : Exn) :
  (create_production_order F doc method w = (Raise e, w') →
     db w' = db w ∧ committed w' = committed w) ∧
  (attach_design_pdf F doc method w = (Raise e, w') →
     db w' = db w ∧ committed w' = committed w) ∧
  (create_warranty_record F doc method w = (Raise e, w') →
     db w' = db w ∧ committed w' = committed w) ∧
  (create_job_card F doc sd mt em w = (Raise e, w') →
     db w' = db w ∧ committed w' = committed w) ∧
  (handle_emergency_job_card F doc method w = (Raise e, w') →
     db w' = db w ∧ committed w' = committed w) ∧
  (log_maintenance_activity F doc method w = (Raise e, w') →
     db w' = db w ∧ committed w' = committed w).
Proof.
  split; [| split; [| split; [| split; [| split]]]]; intros Hrun.
  - unfold create_production_order, try_except, bind, getattr, nowdate,
      doc_insert, db_commit, msgprint, log_error, throw, ret in Hrun.
    raised_before_write Hrun.
  - unfold attach_design_pdf, try_except, bind, getattr, render_template,
      get_pdf, doc_insert, db_commit, log_error, throw, ret in Hrun.
    raised_before_write Hrun.
  - unfold create_warranty_record, try_except, bind, getattr, add_years,
      add_to_date, doc_insert, db_commit, msgprint, log_error, throw, ret in Hrun.
    raised_before_write Hrun.
  - unfold create_job_card, try_except, bind, getattr,
      doc_insert, db_commit, msgprint, log_error, throw, ret in Hrun.
    raised_before_write Hrun.
  - unfold handle_emergency_job_card, create_job_card, try_except, bind,
      getattr, nowdate, doc_insert, db_commit, msgprint, log_error, throw,
      ret in Hrun.
    raised_before_write Hrun.
  - unfold log_maintenance_activity, try_except, bind, getattr, nowdate,
      frappe_session_user, generate_hash, doc_insert, db_commit, msgprint,
      log_error, throw, ret in Hrun.
    raised_before_write Hrun.
Qed.

End Atomic.

(** ** A maintenance schedule that fails on the way *)

Section Schedule.
Context (F : Frappe).

(** The two outcomes of [create_job_card] on an installation that has a
    name: the Job Card is inserted and committed, or the insert is refused
    and nothing is written. *)
Lemma create_job_card_cases (inst : Doc) (n sd : Value) (mt : string)
    (em : bool) (w : World) :
  inst !! "name" = Some n →
  (∃ jc msg,
     create_job_card F inst sd mt em w = (Ok tt, created w jc msg) ∧
     jc !! "doctype" = Some (VStr "Job Card") ∧
     jc !! "installation_record" = Some n ∧
     jc !! "scheduled_date" = Some sd ∧
     jc !! "maintenance_type" = Some (VStr mt) ∧
     jc !! "job_card_id" = Some (job_card_id_of n sd)) ∨
  (∃ cause,
     create_job_card F inst sd mt em w =
     (Raise (ValidationError
               "Failed to create Job Card. Please check the system logs."),
      emit (emit w (EvLogError "Job Card Creation Failed" cause))
           (EvMsgprint "Failed to create Job Card. Please check the system logs."))).
Proof.
  intros Hn.
  unfold create_job_card, try_except, bind, getattr.
  rewrite Hn. run. unfold doc_insert.
  destruct (fw_insert_error F _ w) as [e |] eqn:Hins.
  - right. eexists. reflexivity.
  - left. run. unfold db_commit, msgprint. run.
    eexists _, _. split.
    + unfold created. rewrite <- !app_assoc. reflexivity.
    + repeat split; reflexivity.
Qed.

(** The loop, whatever the framework answers: the Job Cards created are
    those of a prefix of the intervals, in order; the loop stops at the
    first refused insert and keeps what it has committed. *)
Lemma schedule_loop_prefix (inst : Doc) (n : Value) (d0 : Date) (ms : list Z)
    (w w' : World) (r : Res unit) :
  inst !! "name" = Some n →
  Forall (fun m => is_Some (relativedelta d0 0 m)) ms →
  for_each ms (fun months =>
    scheduled_date <- add_months F (VDate d0) months ;;
    create_job_card F inst scheduled_date "Scheduled Maintenance" false) w
  = (r, w') →
  ∃ jcs,
    db w' = (db w ++ jcs)%list ∧
    committed w' = match jcs with [] => committed w | _ => db w' end ∧
    inserted (events w') = (inserted (events w) ++ jcs)%list ∧
    Forall2 (fun m jc =>
               scheduled_job_card inst d0 m jc ∧
               ∃ d, relativedelta d0 0 m = Some d ∧
                    jc !! "job_card_id" = Some (job_card_id_of n (VDate d)))
            (take (length jcs) ms) jcs ∧
    match r with
    | Ok _ => length jcs = length ms
    | Raise e =>
        (length jcs < length ms)%nat ∧
        e = ValidationError
              "Failed to create Job Card. Please check the system logs."
    end.
Proof.
  intros Hn Hms. revert w.
  induction Hms as [| m ms [d Hd] Hms IH]; intros w Hrun.
  - injection Hrun as <- <-. exists []. rewrite !app_nil_r. by repeat split.
  - cbn [for_each] in Hrun. unfold bind at 1 in Hrun. unfold bind at 1 in Hrun.
    unfold add_months, add_to_date in Hrun. rewrite Hd in Hrun.
    destruct (create_job_card_cases inst n (VDate d) "Scheduled Maintenance"
                false w Hn)
      as [(jc & msg & Hjc & Hdt & Hir & Hsd & Hmt & Hid) | (cause & Hjc)];
      rewrite Hjc in Hrun.
    + destruct (IH _ Hrun) as (jcs & Hdb & Hco & Hin & Hall & Hr).
      exists (jc :: jcs). split; [| split; [| split; [| split]]].
      * rewrite Hdb. cbn [created db]. by rewrite <- app_assoc.
      * rewrite Hco. destruct jcs; [| done].
        rewrite Hdb. cbn [created db committed]. by rewrite app_nil_r.
      * rewrite Hin. cbn [created events]. rewrite inserted_app.
        by rewrite <- app_assoc.
      * cbn [length take]. constructor; [| exact Hall]. split.
        -- unfold scheduled_job_card. rewrite Hd, Hn. by eauto.
        -- by exists d.
      * destruct r; cbn [length]; [lia |]. destruct Hr. split; [lia | done].
    + injection Hrun as <- <-. exists []. rewrite !app_nil_r.
      repeat split; try done.
      * unfold emit. cbn [events]. rewrite !inserted_app. cbn.
        by rewrite !app_nil_r.
      * cbn [length]. lia.
Qed.

End Schedule.

Lemma append_inv_head (s a b : string) : s +:+ a = s +:+ b → a = b.
Proof.
  induction s as [| c s IH]; cbn; [done |]. intros [= Heq]. by apply IH.
Qed.

Lemma date_str_inj (d1 d2 : Date) :
  valid_date d1 = true → valid_date d2 = true →
  date_str d1 = date_str d2 → d1 = d2.
Proof.
  intros Hv1 Hv2 Heq.
  pose proof (parse_iso_date_str d1 Hv1) as H1.
  pose proof (parse_iso_date_str d2 Hv2) as H2.
  rewrite Heq in H1. congruence.
Qed.

(** Two intervals of the schedule never lead to the same date. *)
Lemma schedule_dates_differ (d0 d : Date) (m1 m2 : Z) :
  m1 ∈ schedule_intervals → m2 ∈ schedule_intervals →
  relativedelta d0 0 m1 = Some d → relativedelta d0 0 m2 = Some d →
  m1 = m2.
Proof.
  unfold schedule_intervals, relativedelta. intros Hm1 Hm2 H1 H2.
  destruct (_ && _); [| discriminate H1].
  destruct (_ && _); [| discriminate H2].
  injection H1 as <-.
  pose proof (f_equal (fun o => month <$> o) H2) as Hmonth.
  cbn [fmap option_fmap option_map month] in Hmonth. injection Hmonth as Hmonth.
  clear H2.
  repeat (apply elem_of_cons in Hm1 as [-> | Hm1]);
    [.. | by apply elem_of_nil in Hm1];
    repeat (apply elem_of_cons in Hm2 as [-> | Hm2]);
    try (by apply elem_of_nil in Hm2); try reflexivity; exfalso;
    revert Hmonth; Z.to_euclidean_division_equations; lia.
Qed.

Section ScheduleOutcome.
Context (F : Frappe).

Lemma create_maintenance_schedule_prefix (inst : Doc) (n idate : Value)
    (d0 : Date) (w w' : World) (r : Res unit) :
  inst !! "name" = Some n →
  inst !! "installation_date" = Some idate →
  date_of idate = Some d0 → d0 ≠ mkDate 1 1 1 →
  valid_date d0 = true → year d0 < 9999 →
  create_maintenance_schedule F inst w = (r, w') →
  ∃ jcs,
    db w' = (db w ++ jcs)%list ∧
    committed w' = match jcs with [] => committed w | _ => db w' end ∧
    inserted (events w') = (inserted (events w) ++ jcs)%list ∧
    Forall2 (fun m jc =>
               scheduled_job_card inst d0 m jc ∧
               ∃ d, relativedelta d0 0 m = Some d ∧
                    jc !! "job_card_id" = Some (job_card_id_of n (VDate d)))
            (take (length jcs) schedule_intervals) jcs ∧
    match r with
    | Ok _ => length jcs = 4%nat
    | Raise e =>
        (length jcs < 4)%nat ∧
        e = ValidationError
              "Failed to create Maintenance Schedule. Please check the system logs."
    end.
Proof.
  intros Hn Hidate Hd0 Hne Hv Hy Hrun.
  unfold create_maintenance_schedule, try_except in Hrun.
  unfold bind at 1, getattr in Hrun. rewrite Hidate in Hrun.
  unfold bind at 1 in Hrun. rewrite (getdate_date_of F idate d0 w Hd0 Hne) in Hrun.
  match type of Hrun with
  | (let (_, _) := ?loop in _) = _ => destruct loop as [r1 w1] eqn:Hloop
  end.
  destruct (schedule_loop_prefix F inst n d0 schedule_intervals w w1 r1 Hn
              (schedule_intervals_in_range d0 Hv Hy) Hloop)
    as (jcs & Hdb & Hco & Hin & Hall & Hr).
  exists jcs. destruct r1 as [[] | e1].
  - injection Hrun as <- <-. by repeat split.
  - rewrite log_and_throw_raises in Hrun. injection Hrun as <- <-.
    unfold emit. cbn [db committed events]. destruct Hr as [Hlen _].
    rewrite !inserted_app. cbn. rewrite !app_nil_r. by repeat split.
Qed.

(** X10.  [create_maintenance_schedule] has no partial-failure handling: it stops
    at the first Job Card whose insert is refused, and the Job Cards
    created before stay inserted and committed.  What it leaves is the
    schedule for a prefix of the intervals 3, 6, 9, 12: all four exactly
    when it returns normally, fewer when it raises. *)
Theorem maintenance_schedule_stops_at_first_failure (inst : Doc)
    (n idate : Value) (d0 : Date) (w w' : World) (r : Res unit) :
  inst !! "name" = Some n →
  inst !! "installation_date" = Some idate →
  date_of idate = Some d0 → d0 ≠ mkDate 1 1 1 →
  valid_date d0 = true → year d0 < 9999 →
  create_maintenance_schedule F inst w = (r, w') →
  ∃ jcs,
    db w' = (db w ++ jcs)%list ∧
    committed w' = match jcs with [] => committed w | _ => db w' end ∧
    inserted (events w') = (inserted (events w) ++ jcs)%list ∧
    Forall2 (scheduled_job_card inst d0)
            (take (length jcs) schedule_intervals) jcs ∧
    match r with
    | Ok _ => length jcs = 4%nat
    | Raise e =>
        (length jcs < 4)%nat ∧
        e = ValidationError
              "Failed to create Maintenance Schedule. Please check the system logs."
    end.
Proof.
  intros Hn Hidate Hd0 Hne Hv Hy Hrun.
  destruct (create_maintenance_schedule_prefix inst n idate d0 w w' r
              Hn Hidate Hd0 Hne Hv Hy Hrun)
    as (jcs & Hdb & Hco & Hin & Hall & Hr).
  exists jcs. repeat split; try assumption.
  eapply Forall2_impl; [exact Hall |]. by intros m jc [Hjc _].
Qed.

(** X11.  The Job Cards of one schedule can be told apart: whatever
    [create_maintenance_schedule] has created, no two of its Job Cards
    share a [scheduled_date] or a [job_card_id]. *)
Theorem scheduled_job_cards_are_distinct (inst : Doc)
    (n idate : Value) (d0 : Date) (w w' : World) (r : Res unit) :
  inst !! "name" = Some n →
  inst !! "installation_date" = Some idate →
  date_of idate = Some d0 → d0 ≠ mkDate 1 1 1 →
  valid_date d0 = true → year d0 < 9999 →
  create_maintenance_schedule F inst w = (r, w') →
  ∃ jcs,
    db w' = (db w ++ jcs)%list ∧
    NoDup ((fun jc => jc !! "scheduled_date") <$> jcs) ∧
    NoDup ((fun jc => jc !! "job_card_id") <$> jcs).
Proof.
  intros Hn Hidate Hd0 Hne Hv Hy Hrun.
  destruct (create_maintenance_schedule_prefix inst n idate d0 w w' r
              Hn Hidate Hd0 Hne Hv Hy Hrun)
    as (jcs & Hdb & _ & _ & Hall & _).
  exists jcs. split; [exact Hdb |].
  set (ms := take (length jcs) schedule_intervals) in *.
  assert (NoDup ms) as Hnd.
  { apply sublist_NoDup with schedule_intervals; [| apply sublist_take].
    apply (bool_decide_unpack _). by vm_compute. }
  assert (∀ m, m ∈ ms → is_Some (relativedelta d0 0 m)) as Hsome.
  { intros m Hm%subseteq_take.
    pose proof (schedule_intervals_in_range d0 Hv Hy) as Hr.
    rewrite Forall_forall in Hr. by apply Hr. }
  assert (∀ m, m ∈ ms → m ∈ schedule_intervals) as Hsub
    by (intros m; apply subseteq_take).
  clearbody ms.
  assert ((fun jc => jc !! "scheduled_date") <$> jcs
          = (fun m => VDate <$> relativedelta d0 0 m) <$> ms) as ->.
  { clear - Hall. induction Hall as [| m jc ms' jcs' [Hjc _] _ IH]; [done |].
    rewrite !fmap_cons, IH. f_equal. by destruct Hjc as (_ & _ & -> & _). }
  assert ((fun jc => jc !! "job_card_id") <$> jcs
          = (fun m => (fun d => job_card_id_of n (VDate d))
                        <$> relativedelta d0 0 m) <$> ms) as ->.
  { clear - Hall.
    induction Hall as [| m jc ms' jcs' [_ (d & Hd & Hid)] _ IH]; [done |].
    rewrite !fmap_cons, IH. f_equal. by rewrite Hid, Hd. }
  split; apply NoDup_fmap_2_strong; try exact Hnd; intros m1 m2 Hm1 Hm2 Heq;
    destruct (Hsome m1 Hm1) as [d1 Hd1]; destruct (Hsome m2 Hm2) as [d2 Hd2];
    rewrite Hd1, Hd2 in Heq; cbn in Heq.
  - injection Heq as ->. eapply schedule_dates_differ; eauto.
  - injection Heq as Heq. do 3 apply append_inv_head in Heq.
    assert (d1 = d2) as ->.
    { apply date_str_inj; [by eapply relativedelta_valid ..| exact Heq]. }
    eapply schedule_dates_differ; eauto.
Qed.

End ScheduleOutcome.

(** ** A creation of an Installation Record that fails *)

Lemma replay_appends (evs : list Event) (s : list Doc * list Doc) :
  Forall (fun e => no_db_set e = true) evs →
  ∃ rest, (replay evs s).1 = (s.1 ++ rest)%list ∧
          ((replay evs s).2 = s.2 ∨
           ∃ rest', (replay evs s).2 = (s.1 ++ rest')%list).
Proof.
  intros Hall. revert s. induction Hall as [| e evs He _ IH]; intros s.
  - exists []. rewrite app_nil_r. by split; [| left].
  - change (replay (e :: evs) s) with (replay evs (replay_event s e)).
    destruct e as [d | | | | |]; try discriminate He; try apply IH;
      cbn [replay_event].
    + destruct (IH ((s.1 ++ [d])%list, s.2)) as (rest & H1 & H2).
      cbn [fst snd] in *. exists (d :: rest). split.
      * by rewrite H1, <- app_assoc.
      * destruct H2 as [H2 | (rest' & H2)]; [by left | right].
        exists (d :: rest'). by rewrite H2, <- app_assoc.
    + destruct (IH (s.1, s.1)) as (rest & H1 & H2).
      cbn [fst snd] in *. exists rest. split; [done | right].
      destruct H2 as [H2 | (rest' & H2)]; [| by exists rest'].
      exists []. by rewrite app_nil_r.
Qed.

Section InstallationFailure.
Context (F : Frappe).

Lemma no_db_set_create_job_card (inst : Doc) (sd : Value) (mt : string)
    (em : bool) : emits no_db_set (create_job_card F inst sd mt em).
Proof. unfold create_job_card. solve_emits. Qed.

Lemma no_db_set_create_maintenance_schedule (inst : Doc) :
  emits no_db_set (create_maintenance_schedule F inst).
Proof.
  pose proof no_db_set_create_job_card.
  unfold create_maintenance_schedule, add_months. solve_emits.
Qed.

(** From a store in which everything is committed, the schedule only
    adds documents, to the transaction's store and to the committed one. *)
Lemma create_maintenance_schedule_appends (inst : Doc) (w w' : World)
    (r : Res unit) :
  committed w = db w →
  create_maintenance_schedule F inst w = (r, w') →
  ∃ rest rest', db w' = (db w ++ rest)%list ∧
                committed w' = (db w ++ rest')%list.
Proof.
  intros Hco Hrun.
  destruct (tracks_create_maintenance_schedule F _ _ _ _ Hrun) as (evs1 & Hev1 & Hs).
  destruct (no_db_set_create_maintenance_schedule _ _ _ _ Hrun) as (evs2 & Hev2 & Hn).
  rewrite Hev1 in Hev2. apply new_events_unique in Hev2 as ->.
  destruct (replay_appends evs2 (db w, committed w) Hn) as (rest & H1 & H2).
  rewrite <- Hs in H1, H2. cbn [fst snd] in *.
  exists rest. destruct H2 as [H2 | (rest' & H2)].
  - exists []. by rewrite app_nil_r, H2.
  - by exists rest'.
Qed.

(** X12.  How [create_installation_record] can fail, and what each failure
    leaves behind.  Either nothing was written; or the Installation Record
    was inserted but [db_set] failed before the commit; or the record was
    inserted, linked and committed, and the maintenance schedule failed
    after it.  In the last case the Production Order carries the link, so
    a further run on it returns at once: retrying never creates the
    missing Job Cards. *)
Theorem installation_record_failure_modes (doc : Doc) (method : string)
    (w w' : World) (e : Exn) :
  create_installation_record F doc method w = (Raise e, w') →
  e = ValidationError
        "Failed to create Installation Record. Please check the system logs." ∧
  ((db w' = db w ∧ committed w' = committed w) ∨
   (∃ inst,
      inst !! "doctype" = Some (VStr "Installation Record") ∧
      db w' = (db w ++ [inst])%list ∧ committed w' = committed w) ∨
   (∃ inst nm doctype name rest rest',
      inst !! "doctype" = Some (VStr "Installation Record") ∧
      inst !! "name" = Some (VStr nm) ∧
      doc !! "doctype" = Some doctype ∧ doc !! "name" = Some name ∧
      let link row :=
        if same_document doctype name row
        then <["installation_record" := VStr nm]> row else row in
      db w' = ((link <$> (db w ++ [inst])) ++ rest)%list ∧
      committed w' = ((link <$> (db w ++ [inst])) ++ rest')%list ∧
      (nm ≠ "" →
       ∀ method2 w2,
         create_installation_record F
           (<["installation_record" := VStr nm]> doc) method2 w2
         = (Ok (<["installation_record" := VStr nm]> doc), w2)))).
Proof.
  intros Hrun. unfold create_installation_record, try_except in Hrun.
  match type of Hrun with
  | (let (_, _) := ?body in _) = _ => destruct body as [[d1|e0] w1] eqn:Hbody
  end; [discriminate Hrun |].
  rewrite log_and_throw_raises in Hrun. injection Hrun as <- <-.
  split; [reflexivity |]. unfold emit. cbn [db committed].
  unfold bind at 1, getattr at 1 in Hbody.
  destruct (doc !! "status") as [status|] eqn:Hst;
    [| injection Hbody as <- <-; by left].
  destruct (py_eq_str status "Completed" &&
            negb (py_truthy (doc_get doc "installation_record" VNone)))
    eqn:Hguard; [| discriminate Hbody].
  unfold bind at 1, getattr at 1 in Hbody.
  destruct (doc !! "name") as [name|] eqn:Hname;
    [| injection Hbody as <- <-; by left].
  unfold bind at 1, nowdate in Hbody. unfold bind at 1, frappe_session_user in Hbody.
  unfold bind at 1, doc_insert in Hbody.
  destruct (fw_insert_error F _ w) eqn:Hins;
    [injection Hbody as <- <-; by left |].
  cbn beta iota zeta in Hbody.
  match type of Hbody with
  | context [EvInsert ?i0] => remember i0 as inst eqn:Hinst
  end.
  assert (inst !! "doctype" = Some (VStr "Installation Record")) as Hidt
    by (rewrite Hinst, lookup_insert_ne by done; reflexivity).
  assert (∃ nm, inst !! "name" = Some (VStr nm)) as [nm Hnm]
    by (rewrite Hinst, lookup_insert_eq; by eexists).
  clear Hinst Hins.
  unfold bind at 1, getattr at 1 in Hbody. rewrite Hnm in Hbody.
  unfold bind at 1, db_set in Hbody. unfold bind at 1, getattr at 1 in Hbody.
  destruct (doc !! "doctype") as [dt|] eqn:Hdt;
    [| injection Hbody as <- <-; right; left; by exists inst].
  unfold bind at 1, getattr at 1 in Hbody. rewrite Hname in Hbody.
  destruct (fw_db_set_error F _ _ _ _) eqn:Hset;
    [injection Hbody as <- <-; right; left; by exists inst |].
  cbn beta iota zeta in Hbody.
  unfold bind at 1, db_commit in Hbody.
  unfold bind at 1, getattr at 1 in Hbody. rewrite Hnm in Hbody.
  unfold bind at 1, getattr at 1 in Hbody.
  rewrite lookup_insert_ne in Hbody by done. rewrite Hname in Hbody.
  unfold bind at 1, msgprint in Hbody.
  unfold bind at 1 in Hbody.
  match type of Hbody with
  | context [create_maintenance_schedule F inst ?w0] =>
      remember w0 as w2 eqn:Hw2;
      destruct (create_maintenance_schedule F inst w2) as [[[]|e1] w3] eqn:Hsched
  end; [discriminate Hbody |].
  injection Hbody as <- <-.
  assert (committed w2 = db w2) as Hcommitted by (rewrite Hw2; reflexivity).
  destruct (create_maintenance_schedule_appends inst w2 w3 (Raise e1)
              Hcommitted Hsched) as (rest & rest' & Hdb & Hco).
  rewrite Hw2 in Hdb, Hco. unfold emit, with_db, with_committed in Hdb, Hco.
  cbn [db committed] in Hdb, Hco.
  right; right. exists inst, nm, dt, name, rest, rest'.
  split; [done |]. split; [done |]. split; [done |]. split; [done |].
  cbv zeta. split; [exact Hdb |]. split; [exact Hco |].
  intros Hnm' method2 w4.
  apply create_installation_record_skips with status.
  - by rewrite lookup_insert_ne.
  - unfold doc_get. rewrite lookup_insert_eq. cbn [py_truthy].
    apply String.eqb_neq in Hnm'. rewrite Hnm'. apply andb_false_r.
Qed.

End InstallationFailure.

(** ** What the created records hold *)

Section Records.
Context (F : Frappe).

Lemma create_job_card_accepted (inst : Doc) (n sd : Value) (mt : string)
    (em : bool) (w : World) :
  inst !! "name" = Some n →
  accepts_inserts F "Job Card" →
  ∃ jc msg,
    create_job_card F inst sd mt em w = (Ok tt, created w jc msg) ∧
    jc !! "job_card_id" = Some (job_card_id_of n sd) ∧
    jc !! "scheduled_date" = Some sd.
Proof.
  intros Hn Hacc.
  unfold create_job_card, try_except, bind, getattr.
  rewrite Hn. run. unfold doc_insert. rewrite Hacc by reflexivity.
  run. unfold db_commit, msgprint. run.
  eexists _, _. split.
  - unfold created. rewrite <- !app_assoc. reflexivity.
  - split; reflexivity.
Qed.

(** X13.  The [job_card_id] is made of the installation's name and the date
    only.  Two emergency Job Cards created for one installation on the
    same day therefore carry the same [job_card_id], and it is also the
    id of a scheduled Job Card of that installation due on that day. *)
Theorem emergency_job_card_ids_repeat (inst : Doc) (n : Value)
    (details1 details2 : string) (w : World) :
  inst !! "name" = Some n →
  accepts_inserts F "Job Card" →
  ∃ jc1 jc2 w1 w2,
    handle_emergency_job_card F inst details1 w = (Ok tt, w1) ∧
    handle_emergency_job_card F inst details2 w1 = (Ok tt, w2) ∧
    db w2 = (db w ++ [jc1; jc2])%list ∧
    jc1 !! "job_card_id" = jc2 !! "job_card_id" ∧
    jc1 !! "job_card_id" = Some (job_card_id_of n (VDate (today w))).
Proof.
  intros Hn Hacc.
  destruct (create_job_card_accepted inst n (VStr (date_str (today w)))
              "Emergency Maintenance" true w Hn Hacc)
    as (jc1 & msg1 & Hrun1 & Hid1 & _).
  set (w1 := emit (created w jc1 msg1) (EvMsgprint "Emergency Job Card created.")).
  destruct (create_job_card_accepted inst n (VStr (date_str (today w1)))
              "Emergency Maintenance" true w1 Hn Hacc)
    as (jc2 & msg2 & Hrun2 & Hid2 & _).
  exists jc1, jc2, w1. eexists. split; [| split; [| split; [| split]]].
  - unfold handle_emergency_job_card, try_except, bind, nowdate.
    rewrite Hrun1. reflexivity.
  - unfold handle_emergency_job_card, try_except, bind, nowdate.
    rewrite Hrun2. reflexivity.
  - unfold msgprint, emit, created. cbn [db]. subst w1.
    unfold emit, created. cbn [db]. by rewrite <- app_assoc.
  - by rewrite Hid1, Hid2.
  - by rewrite Hid1.
Qed.

(** X14.  Every Maintenance Log that [log_maintenance_activity] creates has a
    [maintenance_id] that is not empty: the one of the submitted document
    if that is truthy, and "ML-" followed by a fresh hash if the submitted
    document has none or an empty one.  The [activity] is treated
    differently: the new log takes the submitted document's as it is,
    empty or not, and says "Routine Check" only when the submitted
    document has none. *)
Theorem maintenance_log_defaults (doc : Doc) (method : string) (w : World) :
  accepts_inserts F "Maintenance Log" →
  ∃ ml msg maintenance_id,
    log_maintenance_activity F doc method w = (Ok tt, created w ml msg) ∧
    ml !! "maintenance_id" = Some maintenance_id ∧
    py_truthy maintenance_id = true ∧
    (∀ given, doc !! "maintenance_id" = Some given → py_truthy given = true →
              maintenance_id = given) ∧
    (∀ given, doc !! "maintenance_id" = Some given → py_truthy given = false →
              maintenance_id = VStr ("ML-" +:+ fw_generate_hash F w)) ∧
    (doc !! "maintenance_id" = None →
       maintenance_id = VStr ("ML-" +:+ fw_generate_hash F w)) ∧
    (∀ activity, doc !! "activity" = Some activity →
                 ml !! "activity" = Some activity) ∧
    (doc !! "activity" = None → ml !! "activity" = Some (VStr "Routine Check")).
Proof.
  intros Hacc. unfold log_maintenance_activity, try_except.
  unfold bind at 1.
  destruct (py_truthy (doc_get doc "maintenance_id" VNone)) eqn:Hgiven.
  - unfold ret at 1. unfold bind, nowdate, frappe_session_user. run.
    unfold doc_insert. rewrite Hacc by reflexivity. run.
    unfold db_commit, getattr. run. unfold msgprint. run.
    eexists _, _, (doc_get doc "maintenance_id" VNone).
    split; [| split; [| split; [| split; [| split; [| split; [| split]]]]]].
    + unfold created. rewrite <- !app_assoc. reflexivity.
    + reflexivity.
    + exact Hgiven.
    + intros given Hg _. unfold doc_get. by rewrite Hg.
    + intros given Hg Hf. unfold doc_get in Hgiven. rewrite Hg in Hgiven.
      cbn in Hgiven. congruence.
    + intros Hnone. unfold doc_get in Hgiven. by rewrite Hnone in Hgiven.
    + intros activity Ha. rewrite lookup_insert_ne by done.
      unfold doc_get. rewrite Ha. reflexivity.
    + intros Hnone. rewrite lookup_insert_ne by done.
      unfold doc_get. rewrite Hnone. reflexivity.
  - unfold bind, generate_hash, ret, nowdate, frappe_session_user. run.
    unfold doc_insert. rewrite Hacc by reflexivity. run.
    unfold db_commit, getattr. run. unfold msgprint. run.
    eexists _, _, (VStr ("ML-" +:+ fw_generate_hash F w)).
    split; [| split; [| split; [| split; [| split; [| split; [| split]]]]]].
    + unfold created. rewrite <- !app_assoc. reflexivity.
    + reflexivity.
    + reflexivity.
    + intros given Hg Ht. unfold doc_get in Hgiven. rewrite Hg in Hgiven.
      cbn in Hgiven. congruence.
    + reflexivity.
    + reflexivity.
    + intros activity Ha. rewrite lookup_insert_ne by done.
      unfold doc_get. rewrite Ha. reflexivity.
    + intros Hnone. rewrite lookup_insert_ne by done.
      unfold doc_get. rewrite Hnone. reflexivity.
Qed.

(** X15.  The attributes that [create_production_order] needs and those it can
    do without.  On an approved design, [design_id] and [name] are
    required: without one of them the hook fails and writes nothing.
    [bom_reference] is optional: the Production Order is created with
    [bom_no] set to it, or to [None] when the design has none; it starts
    as "Draft", for a quantity of 1, from today. *)
Theorem production_order_attributes (doc : Doc) (method : string) (w : World)
    (status : Value) :
  doc !! "status" = Some status →
  py_eq_str status "Approved" = true →
  (doc !! "design_id" = None ∨ doc !! "name" = None →
   ∃ cause,
     create_production_order F doc method w =
     (Raise (ValidationError
               "Failed to create Production Order. Please check the system logs."),
      emit (emit w (EvLogError "Production Order Creation Failed" cause))
           (EvMsgprint
              "Failed to create Production Order. Please check the system logs."))) ∧
  (∀ design_id name,
     doc !! "design_id" = Some design_id → doc !! "name" = Some name →
     accepts_inserts F "Production Order" →
     ∃ po msg,
       create_production_order F doc method w = (Ok tt, created w po msg) ∧
       po !! "production_order_id" = Some design_id ∧
       po !! "wastewater_design" = Some name ∧
       po !! "status" = Some (VStr "Draft") ∧
       po !! "production_qty" = Some (VInt 1) ∧
       po !! "expected_start_date" = Some (VStr (date_str (today w))) ∧
       po !! "bom_no" = Some (default VNone (doc !! "bom_reference"))).
Proof.
  intros Hst Happ. split.
  - intros Hmissing.
    unfold create_production_order, try_except.
    unfold bind at 1, getattr at 1. rewrite Hst, Happ.
    unfold bind at 1, getattr at 1.
    destruct (doc !! "design_id") as [design_id|] eqn:Hid.
    + destruct Hmissing as [? | Hname]; [done |].
      unfold bind at 1, getattr at 1. rewrite Hname. by eexists.
    + by eexists.
  - intros design_id name Hid Hname Hacc.
    unfold create_production_order, try_except.
    unfold bind at 1, getattr at 1. rewrite Hst, Happ.
    unfold bind, getattr. rewrite Hid, Hname. run.
    unfold nowdate, doc_insert. rewrite Hacc by reflexivity. run.
    unfold db_commit, msgprint. run.
    eexists _, _. split.
    + unfold created. rewrite <- !app_assoc. reflexivity.
    + repeat split; reflexivity.
Qed.

End Records.

(** ** A design submission that fails at the PDF *)

Section DesignFailure.
Context (F : Frappe).

(** X16.  The three handlers of a submitted design are not undone together.
    When the PDF renderer fails on an approved design, the submit ends in
    the error of [attach_design_pdf], but the Production Order of the
    first handler is inserted and committed, and the mail of the second
    handler, if there was one to send, is sent. *)
Theorem design_submission_fails_at_pdf (doc : Doc) (w : World)
    (status design_id design_date name : Value) (html : string) (e : Exn) :
  doc !! "doctype" = Some (VStr "Wastewater System Design") →
  doc !! "status" = Some status →
  py_eq_str status "Approved" = true →
  doc !! "design_id" = Some design_id →
  doc !! "design_date" = Some design_date →
  doc !! "name" = Some name →
  accepts_inserts F "Production Order" →
  sendmail_works F →
  (∀ w1, fw_render_template F
           "aquanova_suite/templates/print/wastewater_design.html"
           (Some doc) w1 = Ok html) →
  (∀ w1, fw_get_pdf F html w1 = Raise e) →
  ∃ po w',
    run_on_submit F doc w =
      (Raise (ValidationError
                "Failed to generate PDF. Please check the system logs."), w') ∧
    po !! "doctype" = Some (VStr "Production Order") ∧
    po !! "wastewater_design" = Some name ∧
    db w' = (db w ++ [po])%list ∧
    committed w' = (db w ++ [po])%list ∧
    (∀ m, m ∈ sent (events w) → m ∈ sent (events w')) ∧
    match manager_emails (db w) with
    | [] => sent (events w') = sent (events w)
    | rs => ∃ m, sent (events w') = (sent (events w) ++ [m])%list ∧
                 recipients m = rs
    end.
Proof.
  intros Hdt Hst Happ Hid Hdate Hname HaccP Hmail Hhtml Hpdf.
  destruct (create_production_order_created F doc "on_submit" w _ _ _
              Hst Happ Hid Hname HaccP)
    as (po & msg & Hrun1 & Hpdt & _ & Hpwd & _).
  set (w1 := created w po msg) in *.
  assert (manager_emails (db w1) = manager_emails (db w)) as Hms1
    by (by apply manager_emails_other with "Production Order").
  destruct (send_design_approval_email_run F doc "on_submit" w1 _ _ Hid Hdate)
    as (subject & message & Hrun2).
  rewrite Hms1 in Hrun2.
  assert (∃ w2 mails,
            send_design_approval_email F doc "on_submit" w1 = (Ok tt, w2) ∧
            db w2 = db w1 ∧ committed w2 = committed w1 ∧
            sent (events w2) = (sent (events w) ++ mails)%list ∧
            match manager_emails (db w) with
            | [] => mails = []
            | rs => ∃ m, mails = [m] ∧ recipients m = rs
            end)
    as (w2 & mails & Hrun2' & Hdb2 & Hco2 & Hsent2 & Hmails).
  { assert (sent (events w1) = sent (events w)) as Hs1.
    { subst w1. unfold sent, created. cbn [events]. rewrite omap_app. cbn.
      by rewrite app_nil_r. }
    destruct (manager_emails (db w)) as [| r rs].
    - exists w1, []. rewrite app_nil_r. by repeat split.
    - cbn zeta in Hrun2. rewrite Hmail in Hrun2.
      eexists _, [mkMail (r :: rs) subject message []].
      split; [exact Hrun2 |]. unfold emit. cbn [db committed events].
      repeat split; [| by eexists].
      unfold sent in *. rewrite omap_app, Hs1. reflexivity. }
  assert (attach_design_pdf F doc "on_submit" w2 =
          (Raise (ValidationError
                    "Failed to generate PDF. Please check the system logs."),
           emit (emit w2 (EvLogError "PDF Generation Failed" (exn_str e)))
                (EvMsgprint "Failed to generate PDF. Please check the system logs.")))
    as Hrun3.
  { unfold attach_design_pdf, try_except.
    unfold bind at 1, render_template. rewrite Hhtml.
    unfold bind at 1, get_pdf. rewrite Hpdf. reflexivity. }
  exists po. eexists. split.
  - unfold run_on_submit, try_except, run_doc_event. rewrite Hdt.
    change (handlers_of "Wastewater System Design" "on_submit")
      with ["aquanova_suite.customizations.create_production_order";
            "aquanova_suite.customizations.send_design_approval_email";
            "aquanova_suite.customizations.attach_design_pdf"].
    cbn [call_handlers].
    change (get_attr F "aquanova_suite.customizations.create_production_order")
      with (Some (same_object (create_production_order F))).
    change (get_attr F "aquanova_suite.customizations.send_design_approval_email")
      with (Some (same_object (send_design_approval_email F))).
    change (get_attr F "aquanova_suite.customizations.attach_design_pdf")
      with (Some (same_object (attach_design_pdf F))).
    unfold same_object, bind, ret. rewrite Hrun1, Hrun2', Hrun3.
    unfold db_rollback, raise. reflexivity.
  - unfold emit, with_db. cbn [db committed events].
    assert (sent (events w2 ++ [EvLogError "PDF Generation Failed" (exn_str e)]
                  ++ [EvMsgprint "Failed to generate PDF. Please check the system logs."])
            = sent (events w2)) as Hs3.
    { unfold sent. rewrite omap_app. cbn. by rewrite app_nil_r. }
    rewrite <- app_assoc, Hs3, Hsent2, Hco2.
    split; [done |]. split; [done |]. split; [done |]. split; [done |].
    split; [intros m Hm; apply elem_of_app; by left |].
    destruct (manager_emails (db w)) as [| r rs].
    + subst mails. by rewrite app_nil_r.
    + destruct Hmails as (m & -> & Hr). by exists m.
Qed.

End DesignFailure.

(** * Errors and the commits of the handlers *)

(** ** Traces in which every insert is committed *)









(** ** Hooks that commit their inserts *)





Section Settles.
Context (F : Frappe).



End Settles.



Section HooksSettle.
Context (F : Frappe).







End HooksSettle.

(** ** What a dispatch leaves behind *)





Section Dispatch.
Context (F : Frappe).






End Dispatch.


(** ** The further statements at concrete inputs *)

Lemma generate_maintenance_report_outcomes_witness :
  let F := test_frappe [] false in
  let w := stored [] in
  let w' := (generate_maintenance_report F w).2 in
  Ok tt = Ok tt ∧
  db w' = db w ∧ committed w' = committed w ∧
  ((∃ html pdf,
      render_template F "aquanova_suite/templates/print/maintenance_report.html"
        None w = (Ok html, w) ∧
      get_pdf F html w = (Ok pdf, w) ∧
      events w' = (events w ++ [EvSendmail (report_mail pdf)])%list) ∨
   (∃ cause,
      events w' =
        (events w ++
         [EvLogError "Maintenance Report Generation Failed" cause])%list)).
Proof.
  intros F w w'.
  apply (generate_maintenance_report_outcomes F w w' (Ok tt)).
  refine (pair_eta_fst (generate_maintenance_report F w) _ _).
  vm_compute. reflexivity.
Defined.

Lemma only_on_submit_registered_witness :
  run_doc_event (test_frappe [] false) order_PO1 "on_cancel" (stored [order_PO1])
  = (Ok order_PO1, stored [order_PO1]).
Proof.
  apply (only_on_submit_registered (test_frappe [] false) order_PO1 "on_cancel"
           (stored [order_PO1])).
  left. discriminate.
Defined.

Lemma created_documents_do_not_cascade_witness :
  let F := test_frappe [] false in
  let doc := design_WD1 "Approved" in
  let w := stored [doc] in
  let w' := (run_doc_event F doc "on_submit" w).2 in
  ∃ evs,
    events w' = (events w ++ evs)%list ∧
    ∀ d, d ∈ inserted evs →
      initial_document d = true ∧
      (∀ method w2,
         d !! "doctype" = Some (VStr "Production Order") →
         create_installation_record F d method w2 = (Ok d, w2)) ∧
      (∀ method w2,
         d !! "doctype" = Some (VStr "Installation Record") →
         create_warranty_record F d method w2 = (Ok tt, w2)).
Proof.
  intros F doc w w'.
  apply (created_documents_do_not_cascade F doc "on_submit" w w' (Ok doc)).
  refine (pair_eta_fst (run_doc_event F doc "on_submit" w) _ _).
  vm_compute. reflexivity.
Defined.

Lemma status_attribute_required_witness :
  let F := test_frappe [] false in
  let w := stored [component_MC1] in
  (∃ cause,
     create_production_order F component_MC1 "on_submit" w =
     (Raise (ValidationError
               "Failed to create Production Order. Please check the system logs."),
      emit (emit w (EvLogError "Production Order Creation Failed" cause))
           (EvMsgprint
              "Failed to create Production Order. Please check the system logs."))) ∧
  (∃ cause,
     create_installation_record F component_MC1 "on_submit" w =
     (Raise (ValidationError
               "Failed to create Installation Record. Please check the system logs."),
      emit (emit w (EvLogError "Installation Record Creation Failed" cause))
           (EvMsgprint
              "Failed to create Installation Record. Please check the system logs."))) ∧
  (∃ cause,
     create_warranty_record F component_MC1 "on_submit" w =
     (Raise (ValidationError
               "Failed to create Warranty Record. Please check the system logs."),
      emit (emit w (EvLogError "Warranty Record Creation Failed" cause))
           (EvMsgprint
              "Failed to create Warranty Record. Please check the system logs."))).
Proof.
  intros F w.
  apply (status_attribute_required F component_MC1 "on_submit" w).
  reflexivity.
Defined.

Lemma maintenance_schedule_stops_at_first_failure_witness :
  let F := full_frappe 3 in
  let w := stored [installation_IR1] in
  let w' := (create_maintenance_schedule F installation_IR1 w).2 in
  ∃ jcs,
    db w' = (db w ++ jcs)%list ∧
    committed w' = match jcs with [] => committed w | _ => db w' end ∧
    inserted (events w') = (inserted (events w) ++ jcs)%list ∧
    Forall2 (scheduled_job_card installation_IR1 (mkDate 2024 2 29))
            (take (length jcs) schedule_intervals) jcs ∧
    (length jcs < 4)%nat ∧
    ValidationError
      "Failed to create Maintenance Schedule. Please check the system logs."
    = ValidationError
        "Failed to create Maintenance Schedule. Please check the system logs.".
Proof.
  intros F w w'.
  apply (maintenance_schedule_stops_at_first_failure F installation_IR1
           (VStr "IR-1") (VDate (mkDate 2024 2 29)) (mkDate 2024 2 29) w w'
           (Raise (ValidationError
                     "Failed to create Maintenance Schedule. Please check the system logs."))).
  - reflexivity.
  - reflexivity.
  - reflexivity.
  - discriminate.
  - reflexivity.
  - simpl. lia.
  - refine (pair_eta_fst (create_maintenance_schedule F installation_IR1 w) _ _).
    vm_compute. reflexivity.
Defined.

Lemma scheduled_job_cards_are_distinct_witness :
  let F := test_frappe [] false in
  let w := stored [installation_IR1] in
  let w' := (create_maintenance_schedule F installation_IR1 w).2 in
  ∃ jcs,
    db w' = (db w ++ jcs)%list ∧
    NoDup ((fun jc => jc !! "scheduled_date") <$> jcs) ∧
    NoDup ((fun jc => jc !! "job_card_id") <$> jcs).
Proof.
  intros F w w'.
  apply (scheduled_job_cards_are_distinct F installation_IR1
           (VStr "IR-1") (VDate (mkDate 2024 2 29)) (mkDate 2024 2 29) w w'
           (Ok tt)).
  - reflexivity.
  - reflexivity.
  - reflexivity.
  - discriminate.
  - reflexivity.
  - simpl. lia.
  - refine (pair_eta_fst (create_maintenance_schedule F installation_IR1 w) _ _).
    vm_compute. reflexivity.
Defined.

Lemma installation_record_failure_modes_witness :
  let F := test_frappe ["Job Card"] false in
  let doc := order_PO1 in
  let w := stored [order_PO1] in
  let w' := (create_installation_record F doc "on_submit" w).2 in
  ValidationError
    "Failed to create Installation Record. Please check the system logs."
  = ValidationError
      "Failed to create Installation Record. Please check the system logs." ∧
  ((db w' = db w ∧ committed w' = committed w) ∨
   (∃ inst,
      inst !! "doctype" = Some (VStr "Installation Record") ∧
      db w' = (db w ++ [inst])%list ∧ committed w' = committed w) ∨
   (∃ inst nm doctype name rest rest',
      inst !! "doctype" = Some (VStr "Installation Record") ∧
      inst !! "name" = Some (VStr nm) ∧
      doc !! "doctype" = Some doctype ∧ doc !! "name" = Some name ∧
      let link row :=
        if same_document doctype name row
        then <["installation_record" := VStr nm]> row else row in
      db w' = ((link <$> (db w ++ [inst])) ++ rest)%list ∧
      committed w' = ((link <$> (db w ++ [inst])) ++ rest')%list ∧
      (nm ≠ "" →
       ∀ method2 w2,
         create_installation_record F
           (<["installation_record" := VStr nm]> doc) method2 w2
         = (Ok (<["installation_record" := VStr nm]> doc), w2)))).
Proof.
  intros F doc w w'.
  apply (installation_record_failure_modes F doc "on_submit" w w'
           (ValidationError
              "Failed to create Installation Record. Please check the system logs.")).
  refine (pair_eta_fst (create_installation_record F doc "on_submit" w) _ _).
  vm_compute. reflexivity.
Defined.

Lemma emergency_job_card_ids_repeat_witness :
  let F := test_frappe [] false in
  let w := stored [installation_IR1] in
  ∃ jc1 jc2 w1 w2,
    handle_emergency_job_card F installation_IR1 "pump stopped" w = (Ok tt, w1) ∧
    handle_emergency_job_card F installation_IR1 "pump leaking" w1 = (Ok tt, w2) ∧
    db w2 = (db w ++ [jc1; jc2])%list ∧
    jc1 !! "job_card_id" = jc2 !! "job_card_id" ∧
    jc1 !! "job_card_id" = Some (VStr "JC-IR-1-2024-11-30").
Proof.
  intros F w.
  apply (emergency_job_card_ids_repeat F installation_IR1 (VStr "IR-1")
           "pump stopped" "pump leaking" w).
  - reflexivity.
  - intros d w0 _. reflexivity.
Defined.

Lemma maintenance_log_defaults_witness :
  let F := test_frappe [] false in
  let doc := maintenance_log_ML2 in
  let w := stored [doc] in
  ∃ ml msg maintenance_id,
    log_maintenance_activity F doc "on_submit" w = (Ok tt, created w ml msg) ∧
    ml !! "maintenance_id" = Some maintenance_id ∧
    py_truthy maintenance_id = true ∧
    (∀ given, doc !! "maintenance_id" = Some given → py_truthy given = true →
              maintenance_id = given) ∧
    (∀ given, doc !! "maintenance_id" = Some given → py_truthy given = false →
              maintenance_id = VStr "ML-0a1b2c3d") ∧
    (doc !! "maintenance_id" = None → maintenance_id = VStr "ML-0a1b2c3d") ∧
    (∀ activity, doc !! "activity" = Some activity →
                 ml !! "activity" = Some activity) ∧
    (doc !! "activity" = None → ml !! "activity" = Some (VStr "Routine Check")).
Proof.
  intros F doc w.
  apply (maintenance_log_defaults F doc "on_submit" w).
  intros d w0 _. reflexivity.
Defined.

Lemma production_order_attributes_witness :
  let F := test_frappe [] false in
  let doc := design_WD1 "Approved" in
  let w := stored [doc] in
  (doc !! "design_id" = None ∨ doc !! "name" = None →
   ∃ cause,
     create_production_order F doc "on_submit" w =
     (Raise (ValidationError
               "Failed to create Production Order. Please check the system logs."),
      emit (emit w (EvLogError "Production Order Creation Failed" cause))
           (EvMsgprint
              "Failed to create Production Order. Please check the system logs."))) ∧
  (∀ design_id name,
     doc !! "design_id" = Some design_id → doc !! "name" = Some name →
     accepts_inserts F "Production Order" →
     ∃ po msg,
       create_production_order F doc "on_submit" w = (Ok tt, created w po msg) ∧
       po !! "production_order_id" = Some design_id ∧
       po !! "wastewater_design" = Some name ∧
       po !! "status" = Some (VStr "Draft") ∧
       po !! "production_qty" = Some (VInt 1) ∧
       po !! "expected_start_date" = Some (VStr "2024-11-30") ∧
       po !! "bom_no" = Some VNone).
Proof.
  intros F doc w.
  apply (production_order_attributes F doc "on_submit" w (VStr "Approved")).
  - reflexivity.
  - reflexivity.
Defined.

Lemma design_submission_fails_at_pdf_witness :
  let F := test_frappe [] true in
  let doc := design_WD1 "Approved" in
  let w := stored [doc; has_role "alice" "Production Manager";
                   user "alice" (VStr "alice@example.com")] in
  ∃ po w',
    run_on_submit F doc w =
      (Raise (ValidationError
                "Failed to generate PDF. Please check the system logs."), w') ∧
    po !! "doctype" = Some (VStr "Production Order") ∧
    po !! "wastewater_design" = Some (VStr "WD-1") ∧
    db w' = (db w ++ [po])%list ∧
    committed w' = (db w ++ [po])%list ∧
    (∀ m, m ∈ sent (events w) → m ∈ sent (events w')) ∧
    match manager_emails (db w) with
    | [] => sent (events w') = sent (events w)
    | rs => ∃ m, sent (events w') = (sent (events w) ++ [m])%list ∧
                 recipients m = rs
    end.
Proof.
  intros F doc w.
  apply (design_submission_fails_at_pdf F doc w (VStr "Approved") (VStr "D-001")
           (VDate (mkDate 2024 11 1)) (VStr "WD-1")
           "<html>aquanova_suite/templates/print/wastewater_design.html</html>"
           (FrameworkError "wkhtmltopdf failed")).
  - reflexivity.
  - reflexivity.
  - reflexivity.
  - reflexivity.
  - reflexivity.
  - reflexivity.
  - intros d w0 _. reflexivity.
  - intros m w0. reflexivity.
  - intros w1. reflexivity.
  - intros w1. reflexivity.
Defined.
